(** * Data-Pipeline: change tracker, aggregate XML store and orchestration

    A shallow embedding of the four Python modules of the repository

      - [file_tracker.py]        (class FileTracker)
      - [xml_handler.py]         (class XMLHandler)
      - [document_processor.py]  (class DocumentProcessor)
      - [main.py]                (class DocumentProcessingPipeline)

    Python objects are records, dictionaries whose iteration order the
    code relies on are ordered association lists, the tracker mapping and
    the disk are finite maps, and methods are functions in a state and
    exception monad over the whole system state.  Calls into the
    platform and into third-party libraries (os.path, os.walk, PyPDF2,
    python-docx, datetime, the XML writer/parser pair) are fields of an
    environment record.  Calls to [logging] change nothing that the
    program reads back and are left out.  A Python [str] is held as its
    UTF-8 encoding, modification times are rationals (every finite
    float is one), and an exception is a value of [Exn] returned in
    place of the result.

    The disk is a finite map from paths to files, and a file is what its
    reader makes of it: a tracker mapping from paths to numbers, an XML
    tree, or a file on which the JSON and the XML parser raise their
    parse errors.  Directories are not part of it, so [os.makedirs] has
    no counterpart; a file on which the XML parser fails in another way
    than by [ParseError] (an unknown encoding, a read error), a tracker
    file that is valid JSON of another shape, and a file that goes away
    between [os.path.exists] and [os.path.getmtime] are outside the
    model. *)

From Stdlib Require Import Ascii String QArith.
From stdpp Require Import gmap strings list fin_maps.

Local Open Scope string_scope.
Local Open Scope list_scope.

(** ** Python strings *)

Module PyStr.

Definition nl : string := String "010"%char "".
Definition cr : string := String "013"%char "".
Definition ff : string := String "012"%char "".
(** U+00A0 NO-BREAK SPACE and U+2003 EM SPACE *)
Definition nbsp : string := String "194"%char (String "160"%char "").
Definition em_space : string :=
  String "226"%char (String "128"%char (String "131"%char "")).

(** A Python [str] is held as its UTF-8 encoding.  The characters that
    [str.strip] removes (those for which [str.isspace] holds) are, in
    this encoding, the one-byte TAB, LF, VT, FF, CR, FS, GS, RS, US and
    SPACE; the two-byte U+0085 and U+00A0; and the three-byte U+1680,
    U+2000 to U+200A, U+2028, U+2029, U+202F, U+205F and U+3000. *)
Definition space1 (a : ascii) : bool :=
  match a with
  | "009" | "010" | "011" | "012" | "013"
  | "028" | "029" | "030" | "031" | " " => true
  | _ => false
  end%char.

Definition space2 (a b : ascii) : bool :=
  Ascii.eqb a "194" && (Ascii.eqb b "133" || Ascii.eqb b "160").

Definition space3 (a b c : ascii) : bool :=
  let n := nat_of_ascii c in
  Ascii.eqb a "225" && Ascii.eqb b "154" && Ascii.eqb c "128"
  || Ascii.eqb a "226" && Ascii.eqb b "128"
     && ((128 <=? n)%nat && (n <=? 138)%nat
         || (n =? 168)%nat || (n =? 169)%nat || (n =? 175)%nat)
  || Ascii.eqb a "226" && Ascii.eqb b "129" && Ascii.eqb c "159"
  || Ascii.eqb a "227" && Ascii.eqb b "128" && Ascii.eqb c "128".

(** [s] is empty or consists of white space only. *)
Fixpoint whitespace_only (s : string) : bool :=
  match s with
  | "" => true
  | String a t =>
      if space1 a then whitespace_only t
      else
        match t with
        | "" => false
        | String b t1 =>
            if space2 a b then whitespace_only t1
            else
              match t1 with
              | "" => false
              | String c t2 =>
                  if space3 a b c then whitespace_only t2 else false
              end
        end
  end.

(** [s.lstrip()] *)
Fixpoint lstrip (s : string) : string :=
  match s with
  | "" => ""
  | String a t =>
      if space1 a then lstrip t
      else
        match t with
        | "" => s
        | String b t1 =>
            if space2 a b then lstrip t1
            else
              match t1 with
              | "" => s
              | String c t2 => if space3 a b c then lstrip t2 else s
              end
        end
  end.

(** [s.rstrip()]: what is left of [s] before its white-space-only
    end. *)
Fixpoint rstrip (s : string) : string :=
  match s with
  | "" => ""
  | String a t => if whitespace_only s then "" else String a (rstrip t)
  end.

(** [s.strip()] *)
Definition strip (s : string) : string := rstrip (lstrip s).

(** Truth value of a string: [bool(s)]. *)
Definition truthy (s : string) : bool :=
  match s with "" => false | _ => true end.

(** [s.replace(a, b)] for one-character [a] and [b]. *)
Fixpoint replace_char (a b : ascii) (s : string) : string :=
  match s with
  | "" => ""
  | String c t =>
      String (if Ascii.eqb c a then b else c) (replace_char a b t)
  end.

(** [sub in s] *)
Fixpoint contains (sub s : string) : bool :=
  String.prefix sub s ||
  match s with
  | "" => false
  | String _ t => contains sub t
  end.

(** [sep.join(l)] *)
Fixpoint join (sep : string) (l : list string) : string :=
  match l with
  | [] => ""
  | [x] => x
  | x :: rest => x +:+ sep +:+ join sep rest
  end.

(** [n * s] *)
Fixpoint repeat (s : string) (n : nat) : string :=
  match n with
  | O => ""
  | S k => s +:+ repeat s k
  end.

(** [str.lower] restricted to ASCII letters; used to instantiate the
    environment on concrete inputs. *)
Definition ascii_lower_char (c : ascii) : ascii :=
  let n := nat_of_ascii c in
  if (65 <=? n)%nat && (n <=? 90)%nat then ascii_of_nat (n + 32) else c.

Fixpoint ascii_lower (s : string) : string :=
  match s with
  | "" => ""
  | String c t => String (ascii_lower_char c) (ascii_lower t)
  end.

End PyStr.

(** ** Python dictionaries with insertion order *)

Section Dict.
Context {V : Type}.

(** [d.get(k)] *)
Fixpoint dict_get (k : string) (d : list (string * V)) : option V :=
  match d with
  | [] => None
  | (k', v) :: rest => if String.eqb k' k then Some v else dict_get k rest
  end.

(** [d[k] = v]: an existing key keeps its position, a new key goes to
    the end. *)
Fixpoint dict_set (k : string) (v : V) (d : list (string * V))
  : list (string * V) :=
  match d with
  | [] => [(k, v)]
  | (k', v') :: rest =>
      if String.eqb k' k then (k', v) :: rest
      else (k', v') :: dict_set k v rest
  end.

(** [k in d] *)
Definition dict_mem (k : string) (d : list (string * V)) : bool :=
  match dict_get k d with Some _ => true | None => false end.

Definition dict_keys (d : list (string * V)) : list string := map fst d.
End Dict.

(** ** xml.etree.ElementTree elements *)

#[warnings="-register-all"]
Inductive Element : Type :=
  mkElement {
    tag : string;
    attrib : list (string * string);
    text : option string;
    tail : option string;
    children : list Element
  }.

(** [ET.Element(t)] *)
Definition ET_Element (t : string) : Element :=
  mkElement t [] None None [].

(** [elem.set(k, v)] *)
Definition Element_set (k v : string) (e : Element) : Element :=
  mkElement (tag e) (dict_set k v (attrib e)) (text e) (tail e) (children e).

(** [elem.get(k)] *)
Definition Element_get (k : string) (e : Element) : option string :=
  dict_get k (attrib e).

(** [elem.append(c)] *)
Definition Element_append (c : Element) (e : Element) : Element :=
  mkElement (tag e) (attrib e) (text e) (tail e) (children e ++ [c]).

(** [elem.iter()]: the element and all its descendants, document order. *)
Fixpoint Element_iter (e : Element) : list Element :=
  e :: flat_map Element_iter (children e).

(** Proper descendants, the node set of the path prefix [.//]. *)
Definition descendants (e : Element) : list Element :=
  flat_map Element_iter (children e).

(** [root.findall(".//entry[@filename]")] *)
Definition findall_entry_with_filename (root : Element) : list Element :=
  filter (fun e => String.eqb (tag e) "entry" = true
                   ∧ dict_mem "filename" (attrib e) = true)
         (descendants root).

(** [root.findall(".//entry")] *)
Definition findall_entry (root : Element) : list Element :=
  filter (fun e => String.eqb (tag e) "entry" = true) (descendants root).

(** [not s or not s.strip()] for an optional string ([None] is falsy). *)
Definition blank (o : option string) : bool :=
  match o with
  | None => true
  | Some s => negb (PyStr.truthy s) || negb (PyStr.truthy (PyStr.strip s))
  end.

(** ** Exceptions and results *)

Inductive Exn : Type :=
  | ValueError (msg : string)
  | JSONDecodeError
  | ParseError
  | OSError (path : string)
  | LibraryError (msg : string).

Inductive Result (A : Type) : Type :=
  | Ok (a : A)
  | Raise (e : Exn).
Arguments Ok {A} a.
Arguments Raise {A} e.

(** ** Files the pipeline owns

    A file is described by what its reader returns: [json.load] yields
    the mapping of an [FJson] file and raises [JSONDecodeError] on any
    other, [ET.parse] yields the root of an [FXml] file and raises
    [ParseError] on any other. *)

Inductive File : Type :=
  | FJson (data : gmap string Q)
  | FXml (root : Element)
  | FGarbage.

(** ** Configuration ([config.yaml]) *)

Record Config : Type := mkConfig {
  root_folder : string;                 (* paths.root_folder *)
  output_folder : string;               (* paths.output_folder *)
  documents : gset string;              (* file_types.documents *)
  ignore : gset string;                 (* file_types.ignore *)
  folder_external : string;             (* folders.external *)
  folder_internal : string;             (* folders.internal *)
  folder_client : string;               (* folders.client *)
  external_file : string;               (* xml.external_file *)
  internal_file : string;               (* xml.internal_file *)
  client_file : string                  (* xml.client_file *)
}.

(** ** Environment: platform and third-party libraries *)

(** One page of a PDF: [page.extract_text()] returns a string or raises. *)
Inductive PageResult : Type :=
  | PageText (t : string)
  | PageRaises.

(** [open] + [PdfReader] + iteration over [reader.pages]: opening fails,
    or pages are delivered and the iteration itself may fail after
    them. *)
Inductive PdfRead : Type :=
  | PdfOpenFails
  | PdfPages (pages : list PageResult) (iteration_fails : bool).

(** [Document(path)]: raises, or the texts of [doc.paragraphs]. *)
Inductive DocxRead : Type :=
  | DocxFails
  | DocxParagraphs (ps : list string).

Record Env : Type := mkEnv {
  str_lower : string → string;                     (* str.lower *)
  os_path_splitext : string → string * string;     (* os.path.splitext *)
  os_path_basename : string → string;              (* os.path.basename *)
  os_path_join : string → string → string;         (* os.path.join *)
  (* os.path.getmtime of a source file; [None]: os.path.exists is false *)
  os_path_getmtime : string → option Q;
  os_walk : string → list (string * list string);  (* (subdir, files) *)
  writable : string → bool;                        (* open(path, 'w') succeeds *)
  datetime_now : string → string;       (* str(datetime.now()) at that file *)
  PdfReader : string → PdfRead;
  Document : string → DocxRead;
  (* what ET.parse returns on the file ET.write produced for a tree;
     [None]: the file written is not well-formed *)
  et_reparse : Element → option Element
}.

(** ** Objects and system state *)

Record FileTracker : Type := mkFileTracker {
  tracker_file : string;
  tracked_files : gmap string Q
}.

Record XMLHandler : Type := mkXMLHandler {
  output_dir : string;
  category_files : list (string * string);
  roots : list (string * Element)
}.

Record Sys : Type := mkSys {
  file_tracker : FileTracker;
  xml_handler : XMLHandler;
  disk : gmap string File
}.

Definition set_file_tracker (ft : FileTracker) (s : Sys) : Sys :=
  mkSys ft (xml_handler s) (disk s).
Definition set_xml_handler (xh : XMLHandler) (s : Sys) : Sys :=
  mkSys (file_tracker s) xh (disk s).
Definition set_disk (d : gmap string File) (s : Sys) : Sys :=
  mkSys (file_tracker s) (xml_handler s) d.

(** ** State and exception monad *)

Definition Py (A : Type) : Type := Sys → Result A * Sys.

Definition ret {A} (a : A) : Py A := fun s => (Ok a, s).
Definition raise {A} (e : Exn) : Py A := fun s => (Raise e, s).
Definition bind {A B} (m : Py A) (k : A → Py B) : Py B :=
  fun s => match m s with
           | (Ok a, s') => k a s'
           | (Raise e, s') => (Raise e, s')
           end.
(** [try: m  except Exception as e: h e] *)
Definition try_except {A} (m : Py A) (h : Exn → Py A) : Py A :=
  fun s => match m s with
           | (Ok a, s') => (Ok a, s')
           | (Raise e, s') => h e s'
           end.
Definition get : Py Sys := fun s => (Ok s, s).
Definition modify (f : Sys → Sys) : Py unit := fun s => (Ok tt, f s).

Declare Scope py_scope.
Delimit Scope py_scope with py.
Notation "x <~ m ;; k" := (bind m (fun x => k))
  (at level 100, m at next level, right associativity) : py_scope.
Notation "m ;;; k" := (bind m (fun _ => k))
  (at level 100, right associativity) : py_scope.
Local Open Scope py_scope.

(** [for x in l: body x] *)
Fixpoint for_each {A} (l : list A) (body : A → Py unit) : Py unit :=
  match l with
  | [] => ret tt
  | x :: rest => body x ;;; for_each rest body
  end.

(** ** file_tracker.py *)

(** [Qgtb a b] is Python's [a > b] on finite numbers. *)
Definition Qgtb (a b : Q) : bool := negb (Qle_bool a b).

(** [FileTracker._load_tracker] *)
Definition _load_tracker (tracker_file : string) (d : gmap string File)
  : Result (gmap string Q) :=
  match d !! tracker_file with
  | Some f =>
      match f with
      | FJson data => Ok data
      | _ => Raise JSONDecodeError
      end
  | None => Ok ∅
  end.

(** [FileTracker.__init__] *)
Definition FileTracker_init (tracker_file : string) (d : gmap string File)
  : Result FileTracker :=
  match _load_tracker tracker_file d with
  | Ok data => Ok (mkFileTracker tracker_file data)
  | Raise e => Raise e
  end.

(** [FileTracker._save_tracker] *)
Definition _save_tracker (env : Env) : Py unit :=
  s <~ get ;;
  let ft := file_tracker s in
  if writable env (tracker_file ft)
  then modify (set_disk (<[tracker_file ft := FJson (tracked_files ft)]> (disk s)))
  else raise (OSError (tracker_file ft)).

(** [FileTracker.needs_update] *)
Definition needs_update (env : Env) (file_path : string) : Py bool :=
  s <~ get ;;
  match os_path_getmtime env file_path with
  | None => ret false
  | Some current_mtime =>
      let last_processed :=
        default 0%Q (tracked_files (file_tracker s) !! file_path) in
      ret (Qgtb current_mtime last_processed)
  end.

(** [FileTracker.update_file_timestamp] *)
Definition update_file_timestamp (env : Env) (file_path : string) : Py unit :=
  match os_path_getmtime env file_path with
  | None => raise (OSError file_path)
  | Some m =>
      modify (fun s =>
        let ft := file_tracker s in
        set_file_tracker
          (mkFileTracker (tracker_file ft) (<[file_path := m]> (tracked_files ft)))
          s) ;;;
      _save_tracker env
  end.

(** [FileTracker.remove_file] *)
Definition remove_file (env : Env) (file_path : string) : Py unit :=
  s <~ get ;;
  let ft := file_tracker s in
  match tracked_files ft !! file_path with
  | Some _ =>
      modify (set_file_tracker
                (mkFileTracker (tracker_file ft) (delete file_path (tracked_files ft)))) ;;;
      _save_tracker env
  | None => ret tt
  end.

(** ** xml_handler.py *)

(** The keys of [self.roots] and [self.category_files], in insertion
    order. *)
Definition categories : list string := ["external"; "internal"; "client"].

(** [ET.parse(path).getroot()] on the content of a file *)
Definition ET_parse (f : File) : Result Element :=
  match f with
  | FXml root => Ok root
  | _ => Raise ParseError
  end.

(** [ET.ElementTree(root).write(path, ...)]: the content of the file
    afterwards *)
Definition ET_write (env : Env) (root : Element) : File :=
  match et_reparse env root with
  | Some parsed => FXml parsed
  | None => FGarbage
  end.

(** The body of the loop of [XMLHandler._load_existing_files] *)
Definition load_existing_file (env : Env) (d : gmap string File)
    (self : XMLHandler) (item : string * string) : XMLHandler :=
  let '(category, filename) := item in
  let file_path := os_path_join env (output_dir self) filename in
  match d !! file_path with
  | Some f =>
      match ET_parse f with
      | Ok root =>
          mkXMLHandler (output_dir self) (category_files self)
                       (dict_set category root (roots self))
      | Raise _ => self
      end
  | None => self
  end.

(** [XMLHandler._load_existing_files] *)
Definition _load_existing_files (env : Env) (d : gmap string File)
    (self : XMLHandler) : XMLHandler :=
  fold_left (load_existing_file env d) (category_files self) self.

(** [XMLHandler.__init__] *)
Definition XMLHandler_init (env : Env) (output_dir : string) (config : Config)
    (d : gmap string File) : XMLHandler :=
  let self :=
    mkXMLHandler output_dir
      [("external", external_file config);
       ("internal", internal_file config);
       ("client", client_file config)]
      [("external", ET_Element "Root");
       ("internal", ET_Element "Root");
       ("client", ET_Element "Root")] in
  _load_existing_files env d self.

(** [any(entry.get('filename') == filename for entry in entries)] *)
Definition any_filename (filename : string) (entries : list Element) : bool :=
  existsb (fun entry =>
             match Element_get "filename" entry with
             | Some f => String.eqb f filename
             | None => false
             end) entries.

(** [XMLHandler._entry_exists] *)
Definition _entry_exists (category filename : string) : Py bool :=
  s <~ get ;;
  match dict_get category (roots (xml_handler s)) with
  | None => raise (LibraryError "KeyError")
  | Some root => ret (any_filename filename (findall_entry_with_filename root))
  end.

(** The entry node [add_entry] builds.  [metadata] holds the images of
    the values under [str]. *)
Definition new_entry (filename text : string)
    (metadata : option (list (string * string))) : Element :=
  let entry := ET_Element "entry" in
  let entry := Element_set "filename" filename entry in
  let entry :=
    match metadata with
    | Some ((_ :: _) as md) =>
        fold_left (fun e kv => Element_set (fst kv) (snd kv) e) md entry
    | _ => entry
    end in
  mkElement (tag entry) (attrib entry) (Some text) (tail entry) (children entry).

(** [XMLHandler.add_entry] *)
Definition add_entry (category filename text : string)
    (metadata : option (list (string * string))) : Py unit :=
  s <~ get ;;
  if negb (dict_mem category (roots (xml_handler s)))
  then raise (ValueError ("Invalid category: " +:+ category))
  else
    found <~ _entry_exists category filename ;;
    if found then ret tt
    else
      let entry := new_entry filename text metadata in
      modify (fun s =>
        let self := xml_handler s in
        match dict_get category (roots self) with
        | Some root =>
            set_xml_handler
              (mkXMLHandler (output_dir self) (category_files self)
                 (dict_set category (Element_append entry root) (roots self)))
              s
        | None => s
        end).

(** [XMLHandler._indent] *)
Fixpoint _indent (level : nat) (elem : Element) : Element :=
  let i := PyStr.nl +:+ PyStr.repeat "  " level in
  match elem with
  | mkElement tg ats tx tl cs =>
      match cs with
      | _ :: _ =>
          let tx := if blank tx then Some (i +:+ "  ") else tx in
          let tl := if blank tl then Some i else tl in
          let cs := map (_indent (S level)) cs in
          let tl := if blank tl then Some i else tl in
          mkElement tg ats tx tl cs
      | [] =>
          if negb (Nat.eqb level 0) && blank tl
          then mkElement tg ats tx (Some i) cs
          else elem
      end
  end.

(** [XMLHandler._save_xml]; the root is the object held in
    [self.roots[category]], which [_indent] changes in place. *)
Definition _save_xml (env : Env) (category : string) (root : Element)
    (filename : string) : Py unit :=
  s <~ get ;;
  let output_path := os_path_join env (output_dir (xml_handler s)) filename in
  let root := _indent 0 root in
  modify (fun s =>
    let self := xml_handler s in
    set_xml_handler
      (mkXMLHandler (output_dir self) (category_files self)
         (dict_set category root (roots self))) s) ;;;
  try_except
    (if writable env output_path
     then modify (fun s => set_disk (<[output_path := ET_write env root]> (disk s)) s)
     else raise (OSError output_path))
    (fun _ => ret tt).

(** [XMLHandler.save_all] *)
Definition save_all (env : Env) : Py unit :=
  s <~ get ;;
  for_each (roots (xml_handler s)) (fun item =>
    let '(category, root) := item in
    match dict_get category (category_files (xml_handler s)) with
    | Some filename => _save_xml env category root filename
    | None => raise (LibraryError "KeyError")
    end).

(** ** document_processor.py *)

(** [try: r  except Exception as e: h e] for code without side effects *)
Definition try_result {A} (r : Result A) (h : Exn → Result A) : Result A :=
  match r with
  | Ok a => Ok a
  | Raise e => h e
  end.

(** [self.supported_extensions] *)
Definition supported_extensions : gset string := {[ ".pdf"; ".docx" ]}.

(** The loop over [reader.pages]: a page that raises is skipped, a page
    with empty text adds nothing. *)
Fixpoint pdf_page_texts (pages : list PageResult) : list string :=
  match pages with
  | [] => []
  | PageText t :: rest =>
      if PyStr.truthy t then t :: pdf_page_texts rest else pdf_page_texts rest
  | PageRaises :: rest => pdf_page_texts rest
  end.

(** [DocumentProcessor._extract_from_pdf] *)
Definition _extract_from_pdf (env : Env) (file_path : string) : Result string :=
  match
    try_result
      (match PdfReader env file_path with
       | PdfOpenFails => Raise (LibraryError "PdfReader")
       | PdfPages pages iteration_fails =>
           if iteration_fails then Raise (LibraryError "pages")
           else Ok (Some (pdf_page_texts pages))
       end)
      (fun _ => Ok None)
  with
  | Ok (Some txt) =>
      Ok (match txt with [] => "" | _ => PyStr.join PyStr.nl txt end)
  | Ok None => Ok ""
  | Raise e => Raise e
  end.

(** [DocumentProcessor._extract_from_docx] *)
Definition _extract_from_docx (env : Env) (file_path : string) : Result string :=
  try_result
    (match Document env file_path with
     | DocxFails => Raise (LibraryError "Document")
     | DocxParagraphs ps =>
         let full_text :=
           List.filter (fun p => PyStr.truthy (PyStr.strip p)) ps in
         Ok (PyStr.join PyStr.nl full_text)
     end)
    (fun _ => Ok "").

(** [DocumentProcessor.extract_text].  After the membership test the
    extension is ['.pdf'] or ['.docx'], so the [elif] is the last case. *)
Definition extract_text (env : Env) (file_path : string) : Result string :=
  let extension := str_lower env (snd (os_path_splitext env file_path)) in
  if negb (bool_decide (extension ∈ supported_extensions))
  then Raise (ValueError ("Unsupported file type: " +:+ extension))
  else
    try_result
      (if String.eqb extension ".pdf"
       then _extract_from_pdf env file_path
       else _extract_from_docx env file_path)
      (fun _ => Ok "").

(** ** main.py *)

Inductive Outcome : Type := processed | skipped | error.

(** [DocumentProcessingPipeline._determine_category] *)
Definition _determine_category (env : Env) (config : Config) (subdir : string)
  : option string :=
  let subdir := str_lower env (PyStr.replace_char "\" "/" subdir) in
  let external := str_lower env (folder_external config) in
  let internal := str_lower env (folder_internal config) in
  let client := str_lower env (folder_client config) in
  if PyStr.contains external subdir then Some "external"
  else if PyStr.contains internal subdir then Some "internal"
  else if PyStr.contains client subdir then Some "client"
  else None.

(** Running a side-effect-free computation inside [Py]. *)
Definition lift {A} (r : Result A) : Py A := fun s => (r, s).

(** [DocumentProcessingPipeline._process_file] *)
Definition _process_file (env : Env) (config : Config)
    (file_path subdir : string) : Py Outcome :=
  let extension := str_lower env (snd (os_path_splitext env file_path)) in
  if bool_decide (extension ∈ ignore config) then ret skipped
  else if negb (bool_decide (extension ∈ documents config)) then ret skipped
  else
    due <~ needs_update env file_path ;;
    if negb due then ret skipped
    else
      match _determine_category env config subdir with
      | None => ret skipped
      | Some category =>
          try_except
            (text <~ lift (extract_text env file_path) ;;
             if negb (PyStr.truthy (PyStr.strip text)) then ret error
             else
               add_entry category (os_path_basename env file_path) text
                 (Some [("processed_date", datetime_now env file_path)]) ;;;
               update_file_timestamp env file_path ;;;
               ret processed)
            (fun _ => ret error)
      end.

(** The counters of [process_directory]:
    processed, skipped, errored. *)
Record Counts : Type := mkCounts {
  files_processed : nat;
  files_skipped : nat;
  files_errored : nat
}.

Definition count (result : Result Outcome) (c : Counts) : Counts :=
  match result with
  | Ok processed =>
      mkCounts (S (files_processed c)) (files_skipped c) (files_errored c)
  | Ok skipped =>
      mkCounts (files_processed c) (S (files_skipped c)) (files_errored c)
  | _ =>
      mkCounts (files_processed c) (files_skipped c) (S (files_errored c))
  end.

(** The pairs [(file_path, subdir)] the two nested loops visit. *)
Definition walk_files (env : Env) (root_path : string) : list (string * string) :=
  flat_map (fun item =>
              map (fun filename => (os_path_join env (fst item) filename, fst item))
                  (snd item))
           (os_walk env root_path).

(** The loops of [process_directory]; an exception that leaves
    [_process_file] is counted as an error. *)
Fixpoint process_files (env : Env) (config : Config)
    (files : list (string * string)) (c : Counts) : Py Counts :=
  match files with
  | [] => ret c
  | (file_path, subdir) :: rest =>
      fun s =>
        let '(result, s') := _process_file env config file_path subdir s in
        process_files env config rest (count result c) s'
  end.

(** [DocumentProcessingPipeline.process_directory] *)
Definition process_directory (env : Env) (config : Config) : Py Counts :=
  c <~ process_files env config (walk_files env (root_folder config))
         (mkCounts 0 0 0) ;;
  save_all env ;;;
  ret c.

(** [DocumentProcessingPipeline.__init__] (the configuration has been
    read); [FileTracker()] uses the default ["file_tracker.json"]. *)
Definition Pipeline_init (env : Env) (config : Config) (d : gmap string File)
  : Result Sys :=
  let xml_handler := XMLHandler_init env (output_folder config) config d in
  match FileTracker_init "file_tracker.json" d with
  | Ok file_tracker => Ok (mkSys file_tracker xml_handler d)
  | Raise e => Raise e
  end.

(** [main] on a given disk: the result and the disk afterwards. *)
Definition main (env : Env) (config : Config) (d : gmap string File)
  : Result Counts * gmap string File :=
  match Pipeline_init env config d with
  | Ok s =>
      let '(r, s') := process_directory env config s in (r, disk s')
  | Raise e => (Raise e, d)
  end.

(** ** A concrete environment

    POSIX [os.path], ASCII [str.lower] and an XML 1.0 reading of what the
    writer/parser pair does to a tree of ASCII strings.  These are used
    to evaluate the program on concrete inputs; the general theorems
    hold for every environment. *)

Module Posix.

(** Position of the last occurrence of [c], counted from 1; 0 when
    absent (that is, [s.rfind(c) + 1]). *)
Fixpoint rfind1 (c : ascii) (s : string) : nat :=
  match s with
  | "" => 0
  | String a t =>
      match rfind1 c t with
      | O => if Ascii.eqb a c then 1 else 0
      | S k => S (S k)
      end
  end.

Definition drop (n : nat) (s : string) : string :=
  String.substring n (String.length s - n) s.
Definition take (n : nat) (s : string) : string :=
  String.substring 0 n s.

(** Is there a character other than [.] in [s[i:j]]? *)
Fixpoint non_dot (s : string) : bool :=
  match s with
  | "" => false
  | String a t => negb (Ascii.eqb a ".") || non_dot t
  end.

(** [posixpath.splitext] *)
Definition splitext (p : string) : string * string :=
  let sep1 := rfind1 "/" p in
  let dot1 := rfind1 "." p in
  if (sep1 <? dot1)%nat && non_dot (String.substring sep1 (dot1 - 1 - sep1) p)
  then (take (dot1 - 1) p, drop (dot1 - 1) p)
  else (p, "").

(** [posixpath.basename] *)
Definition basename (p : string) : string := drop (rfind1 "/" p) p.

(** [posixpath.join] of two components *)
Definition join (a b : string) : string :=
  if String.prefix "/" b then b
  else if String.eqb a "" || String.eqb (drop (String.length a - 1) a) "/"
       then a +:+ b
       else a +:+ "/" +:+ b.

End Posix.

Module Xml10.

(** The production [Char] of XML 1.0 on the UTF-8 encoding: of the
    control characters only TAB, LF and CR, and neither U+FFFE nor
    U+FFFF. *)
Definition xml_char (c : ascii) : bool :=
  let n := nat_of_ascii c in
  (n =? 9)%nat || (n =? 10)%nat || (n =? 13)%nat || (32 <=? n)%nat.

Definition nonchar (s : string) : bool :=
  String.prefix (String "239" (String "191" (String "190" ""))) s
  || String.prefix (String "239" (String "191" (String "191" ""))) s.

Fixpoint chars_ok (s : string) : bool :=
  match s with
  | "" => true
  | String c t => xml_char c && negb (nonchar s) && chars_ok t
  end.

(** The table is for ASCII names without a colon, the names of the
    documents this program writes.  A colon makes a name a prefixed one:
    the parser raises on a prefix that is not bound and rewrites the
    name under the prefix [xml], so no such name is read back as it was
    written.  For a name with a byte above 127 the parser decides by the
    code point; the table gives no tree for these. *)
Definition name_start (c : ascii) : bool :=
  let n := nat_of_ascii c in
  ((65 <=? n) && (n <=? 90) || (97 <=? n) && (n <=? 122)
   || (n =? 95))%nat.

Definition name_char (c : ascii) : bool :=
  let n := nat_of_ascii c in
  name_start c || ((48 <=? n) && (n <=? 57) || (n =? 45) || (n =? 46))%nat.

Fixpoint name_chars (s : string) : bool :=
  match s with
  | "" => true
  | String c t => name_char c && name_chars t
  end.

Definition name (s : string) : bool :=
  match s with
  | "" => false
  | String c t => name_start c && name_chars t
  end.

(** End-of-line handling of the parser: CR LF and a lone CR become LF. *)
Fixpoint normalize_eol (s : string) : string :=
  match s with
  | "" => ""
  | String c t =>
      if Ascii.eqb c "013"
      then match t with
           | String "010" t' => String "010" (normalize_eol t')
           | _ => String "010" (normalize_eol t)
           end
      else String c (normalize_eol t)
  end.

(** Character data written unescaped (apart from [&], [<], [>]) and
    read back; an empty string is read back as no text. *)
Definition reparse_text (o : option string) : option (option string) :=
  match o with
  | None => Some None
  | Some s =>
      if chars_ok s
      then Some (match normalize_eol s with "" => None | s' => Some s' end)
      else None
  end.

(** Attribute values are written with TAB, LF and CR as character
    references, and read back unchanged.  An attribute [xmlns] is read
    as a namespace declaration, not as an attribute. *)
Definition attrib_ok (kv : string * string) : bool :=
  name (fst kv) && negb (String.eqb (fst kv) "xmlns") && chars_ok (snd kv).

Fixpoint reparse_element (e : Element) : option Element :=
  match e with
  | mkElement tg ats tx tl cs =>
      if name tg && forallb attrib_ok ats
      then
        match reparse_text tx, reparse_text tl with
        | Some tx', Some tl' =>
            match
              (fix go (l : list Element) : option (list Element) :=
                 match l with
                 | [] => Some []
                 | c :: l' =>
                     match reparse_element c, go l' with
                     | Some c', Some l'' => Some (c' :: l'')
                     | _, _ => None
                     end
                 end) cs
            with
            | Some cs' => Some (mkElement tg ats tx' tl' cs')
            | None => None
            end
        | _, _ => None
        end
      else None
  end.

(** White space allowed after the root element. *)
Fixpoint xml_space (s : string) : bool :=
  match s with
  | "" => true
  | String c t =>
      let n := nat_of_ascii c in
      ((n =? 32) || (n =? 9) || (n =? 10) || (n =? 13))%nat && xml_space t
  end.

(** The whole document: the tail of the root is not part of the tree
    read back. *)
Definition reparse (root : Element) : option Element :=
  match reparse_element root with
  | Some e =>
      if match tail root with None => true | Some s => xml_space s end
      then Some (mkElement (tag e) (attrib e) (text e) None (children e))
      else None
  | None => None
  end.

End Xml10.

(** An environment over POSIX paths whose source tree, modification
    times and document contents are given as tables. *)
Definition table_env (mtimes : list (string * Q))
    (walk : list (string * list string))
    (pdfs : list (string * PdfRead)) (docxs : list (string * DocxRead))
    (read_only : list string) : Env :=
  {| str_lower := PyStr.ascii_lower;
     os_path_splitext := Posix.splitext;
     os_path_basename := Posix.basename;
     os_path_join := Posix.join;
     os_path_getmtime := fun p => dict_get p mtimes;
     os_walk := fun _ => walk;
     writable := fun p => negb (existsb (String.eqb p) read_only);
     datetime_now := fun _ => "2024-01-01 00:00:00.000000";
     PdfReader := fun p => default PdfOpenFails (dict_get p pdfs);
     Document := fun p => default DocxFails (dict_get p docxs);
     et_reparse := Xml10.reparse |}.

Definition example_config : Config :=
  {| root_folder := "/data";
     output_folder := "/out";
     documents := {[ ".pdf"; ".docx" ]};
     ignore := {[ ".tmp" ]};
     folder_external := "External";
     folder_internal := "Internal";
     folder_client := "Client";
     external_file := "external.xml";
     internal_file := "internal.xml";
     client_file := "client.xml" |}.

(** The scenario of the specification: [external/report.pdf] is new,
    [internal/notes.docx] is tracked with its current modification time,
    [unsorted/memo.pdf] lies in no configured folder and
    [client/scan.pdf] yields no text. *)
Definition scenario_env : Env :=
  table_env
    [("/data/external/report.pdf", 100%Q); ("/data/internal/notes.docx", 50%Q);
     ("/data/unsorted/memo.pdf", 70%Q); ("/data/client/scan.pdf", 80%Q)]
    [("/data/external", ["report.pdf"]); ("/data/internal", ["notes.docx"]);
     ("/data/unsorted", ["memo.pdf"]); ("/data/client", ["scan.pdf"])]
    [("/data/external/report.pdf", PdfPages [PageText "Q1"; PageText "Q2"] false);
     ("/data/unsorted/memo.pdf", PdfPages [PageText "memo"] false);
     ("/data/client/scan.pdf", PdfPages [PageText ""] false)]
    [("/data/internal/notes.docx", DocxParagraphs ["notes"])]
    [].

Definition scenario_disk : gmap string File :=
  {[ "file_tracker.json" := FJson {[ "/data/internal/notes.docx" := 50%Q ]} ]}.

(** A source tree with one new PDF whose text has a form feed between
    its two pages' worth of text, and a disk on which the external
    document of an earlier run holds one entry. *)
Definition form_feed_env : Env :=
  table_env [("/data/external/report.pdf", 9%Q)]
    [("/data/external", ["report.pdf"])]
    [("/data/external/report.pdf",
      PdfPages [PageText ("page 1" +:+ PyStr.ff +:+ "page 2")] false)]
    [] [].

Definition prior_document : Element :=
  mkElement "Root" [] None None
    [mkElement "entry" [("filename", "old.pdf")] (Some "old text") None []].

Definition prior_disk : gmap string File :=
  {[ "/out/external.xml" := FXml prior_document ]}.

(** ** Notions used in the statements *)

(** The handler has the three category keys, in insertion order. *)
Definition has_categories (self : XMLHandler) : Prop :=
  dict_keys (roots self) = categories.

(** The handler was built for [config]. *)
Definition built_for (config : Config) (self : XMLHandler) : Prop :=
  output_dir self = output_folder config
  ∧ category_files self =
      [("external", external_file config);
       ("internal", internal_file config);
       ("client", client_file config)]
  ∧ has_categories self.

(** The entries of a document: the children of its root, in order. *)
Definition entries (root : Element) : list Element := children root.

(** What identifies an entry: tag, attributes and body text. *)
Definition same_entry (a b : Element) : Prop :=
  tag a = tag b ∧ attrib a = attrib b ∧ text a = text b.

(** An entry of the shape [add_entry] creates: no child elements. *)
Definition leaf (e : Element) : Prop := children e = [].

(** An entry as [add_entry] appends it. *)
Definition is_new_entry (e : Element) : Prop := tag e = "entry" ∧ leaf e.

(** [root'] is [root] with new entries appended after its children. *)
Definition grown (root root' : Element) : Prop :=
  ∃ news,
    root' = mkElement (tag root) (attrib root) (text root) (tail root)
                      (children root ++ news)
    ∧ Forall is_new_entry news.

(** Every document of [self'] is the document of [self] grown. *)
Definition store_grown (self self' : XMLHandler) : Prop :=
  output_dir self' = output_dir self
  ∧ category_files self' = category_files self
  ∧ dict_keys (roots self') = dict_keys (roots self)
  ∧ ∀ category root,
      dict_get category (roots self) = Some root →
      ∃ root', dict_get category (roots self') = Some root' ∧ grown root root'.


(** An [entry] element carrying the given [filename] attribute. *)
Definition entry_named (filename : string) (e : Element) : Prop :=
  tag e = "entry" ∧ Element_get "filename" e = Some filename.

(** Number of entries carrying the given [filename] attribute. *)
Definition count_filename (filename : string) (root : Element) : nat :=
  length (filter (fun e => Element_get "filename" e = Some filename)
                 (findall_entry root)).

(** The category chosen by first match in the order external,
    internal, client, stated with [find]. *)
Definition first_match (env : Env) (config : Config) (subdir : string)
  : option string :=
  let path := str_lower env (PyStr.replace_char "\" "/" subdir) in
  fst <$>
    find (fun cf => PyStr.contains (str_lower env (snd cf)) path)
         [("external", folder_external config);
          ("internal", folder_internal config);
          ("client", folder_client config)].

(** The output path of a category. *)
Definition output_path (env : Env) (config : Config) (filename : string)
  : string :=
  os_path_join env (output_folder config) filename.

(** The value [needs_update] compares against: the recorded
    modification time, 0 for a path that is not tracked. *)
Definition recorded (s : Sys) (file_path : string) : Q :=
  default 0%Q (tracked_files (file_tracker s) !! file_path).

(** The three category keys with their configured file names. *)
Definition configured_files (config : Config) : list (string * string) :=
  [("external", external_file config);
   ("internal", internal_file config);
   ("client", client_file config)].

(** The three output paths. *)
Definition output_paths (env : Env) (config : Config) : list string :=
  map (fun cf => output_path env config (snd cf)) (configured_files config).

(** The disk after an attempt to write [root] to [path]. *)
Definition write_if (env : Env) (path : string) (root : Element)
    (d : gmap string File) : gmap string File :=
  if writable env path then <[path := ET_write env root]> d else d.

(** The root a category starts from: the root of its output file when
    that file exists and parses, a fresh [Root] element otherwise. *)
Definition loaded_root (env : Env) (config : Config) (d : gmap string File)
    (filename : string) : Element :=
  match d !! output_path env config filename with
  | Some (FXml root) => root
  | _ => ET_Element "Root"
  end.

(** Running a computation for its final state. *)
Definition exec {A} (m : Py A) (s : Sys) : Sys := snd (m s).
Definition eval {A} (m : Py A) (s : Sys) : Result A := fst (m s).

(** The file passes the extension filters, is due and lies in the
    folder of [category]: [_process_file] gets to the extraction. *)
Definition reaches_extraction (env : Env) (config : Config)
    (file_path subdir : string) (s : Sys) (category : string) : Prop :=
  let extension := str_lower env (snd (os_path_splitext env file_path)) in
  (extension ∉ ignore config)
  ∧ (extension ∈ documents config)
  ∧ eval (needs_update env file_path) s = Ok true
  ∧ _determine_category env config subdir = Some category.

(** The lower-cased folder name occurs in the lower-cased directory path
    with its separators normalised. *)
Definition folder_matches (env : Env) (folder subdir : string) : Prop :=
  ∃ pre post,
    str_lower env (PyStr.replace_char "\" "/" subdir)
      = pre +:+ str_lower env folder +:+ post.

(** The system right after start-up on an empty disk. *)
Definition fresh (env : Env) (config : Config) : Sys :=
  mkSys (mkFileTracker "file_tracker.json" ∅)
        (XMLHandler_init env (output_folder config) config ∅) ∅.

(** ** Notions used for the remaining functions *)

(** What the path expressions of the handler look at: tag and
    attributes. *)
Definition shape (e : Element) : string * list (string * string) :=
  (tag e, attrib e).

(** Number of files a run has classified. *)
Definition total (c : Counts) : nat :=
  files_processed c + files_skipped c + files_errored c.

(** The tracker file of the system. *)
Definition tracker_path (s : Sys) : string := tracker_file (file_tracker s).

(** The mapping the tracker holds in memory. *)
Definition tracked (s : Sys) : gmap string Q := tracked_files (file_tracker s).

(** ** Proof support *)

(** Closed membership goals on lists of string literals. *)
Ltac solve_not_elem :=
  unfold categories; rewrite ?not_elem_of_cons;
  repeat split; try discriminate; apply not_elem_of_nil.

Ltac py_unfold :=
  unfold eval, exec, bind, try_except, get, ret, raise, modify, lift in *.

(** * Properties *)

(** ** The model on concrete inputs *)

Example splitext_report :
  Posix.splitext "/data/external/report.v2.PDF" = ("/data/external/report.v2", ".PDF").
Proof. reflexivity. Qed.

Example splitext_hidden : Posix.splitext "/data/.bashrc" = ("/data/.bashrc", "").
Proof. reflexivity. Qed.

Example basename_report : Posix.basename "/data/external/report.pdf" = "report.pdf".
Proof. reflexivity. Qed.

Example join_out : Posix.join "/out" "client.xml" = "/out/client.xml".
Proof. reflexivity. Qed.

Example strip_padded :
  PyStr.strip (" " +:+ PyStr.nl +:+ "a b" +:+ PyStr.nl) = "a b".
Proof. reflexivity. Qed.

Example strip_unicode_white_space :
  PyStr.strip (PyStr.nbsp +:+ "a b" +:+ PyStr.em_space) = "a b"
  ∧ PyStr.whitespace_only (" " +:+ PyStr.nbsp +:+ PyStr.em_space) = true
  ∧ PyStr.whitespace_only (PyStr.nbsp +:+ "a") = false.
Proof. vm_compute. split_and!; reflexivity. Qed.

Example contains_examples :
  PyStr.contains "ern" "/data/external" = true
  ∧ PyStr.contains "" "x" = true
  ∧ PyStr.contains "client" "/data/external" = false.
Proof. repeat split; reflexivity. Qed.

Example determine_category_examples :
  let env := table_env [] [] [] [] [] in
  _determine_category env example_config "/data/External/2024" = Some "external"
  ∧ _determine_category env example_config "C:\Data\INTERNAL\memos" = Some "internal"
  ∧ _determine_category env example_config "/data/client/internal" = Some "internal"
  ∧ _determine_category env example_config "/data/unsorted" = None.
Proof. vm_compute. split_and!; reflexivity. Qed.


Example scenario_counts :
  fst (main scenario_env example_config scenario_disk) = Ok (mkCounts 1 2 1).
Proof. vm_compute. reflexivity. Qed.

Example scenario_external_document :
  snd (main scenario_env example_config scenario_disk) !! "/out/external.xml"
  = Some (FXml
      (mkElement "Root" [] (Some (PyStr.nl +:+ "  ")) None
         [mkElement "entry"
            [("filename", "report.pdf");
             ("processed_date", "2024-01-01 00:00:00.000000")]
            (Some ("Q1" +:+ PyStr.nl +:+ "Q2")) (Some (PyStr.nl +:+ "  ")) []])).
Proof. vm_compute. reflexivity. Qed.

Example scenario_tracker :
  ∃ data,
    snd (main scenario_env example_config scenario_disk) !! "file_tracker.json"
      = Some (FJson data)
    ∧ data !! "/data/external/report.pdf" = Some 100%Q
    ∧ data !! "/data/internal/notes.docx" = Some 50%Q
    ∧ data !! "/data/client/scan.pdf" = None.
Proof. eexists. split_and!; vm_compute; reflexivity. Qed.

Example scenario_second_run :
  fst (main scenario_env example_config
         (snd (main scenario_env example_config scenario_disk)))
  = Ok (mkCounts 0 3 1).
Proof. vm_compute. reflexivity. Qed.

Example corrupt_tracker_is_fatal :
  main scenario_env example_config {[ "file_tracker.json" := FGarbage ]}
  = (Raise JSONDecodeError, {[ "file_tracker.json" := FGarbage ]}).
Proof. vm_compute. reflexivity. Qed.

Example needs_update_examples :
  let s := mkSys (mkFileTracker "file_tracker.json"
                    {[ "/data/internal/notes.docx" := 50%Q ]})
                 (XMLHandler_init scenario_env "/out" example_config ∅) ∅ in
  eval (needs_update scenario_env "/data/internal/notes.docx") s = Ok false
  ∧ eval (needs_update scenario_env "/data/external/report.pdf") s = Ok true
  ∧ eval (needs_update scenario_env "/data/missing.pdf") s = Ok false.
Proof. vm_compute. split_and!; reflexivity. Qed.

(** ** Strings *)

Section PyStrFacts.
Import PyStr.

Lemma string_ind3 (P : string → Prop) :
  P "" → (∀ a, P (String a "")) → (∀ a b, P (String a (String b ""))) →
  (∀ a b c t, P t → P (String c t) → P (String b (String c t)) →
              P (String a (String b (String c t)))) →
  ∀ s, P s.
Proof.
  intros H0 H1 H2 Hstep s.
  assert (H : P s ∧ (∀ c, P (String c s)) ∧ (∀ b c, P (String b (String c s)))).
  { induction s as [|x s (IH0 & IH1 & IH2)]; [by split_and!|].
    split_and!; [apply IH1 | intros c; apply IH2 |].
    intros b c. apply Hstep; auto. }
  apply H.
Qed.

Lemma rstrip_empty_iff s : rstrip s = "" ↔ whitespace_only s = true.
Proof.
  destruct s as [|a t]; [done|].
  change (rstrip (String a t))
    with (if whitespace_only (String a t) then "" else String a (rstrip t)).
  destruct (whitespace_only (String a t)); split; done.
Qed.

Lemma whitespace_only_lstrip s :
  whitespace_only (lstrip s) = whitespace_only s.
Proof.
  induction s as [|a|a b|a b c t IH0 IH1 IH2] using string_ind3.
  - done.
  - simpl. by destruct (space1 a) eqn:E; simpl; rewrite ?E.
  - simpl. destruct (space1 a) eqn:Ea.
    + destruct (space1 b) eqn:Eb; simpl; by rewrite ?Eb.
    + destruct (space2 a b) eqn:Eab; simpl; by rewrite ?Ea, ?Eab.
  - cbn [lstrip whitespace_only] in *.
    destruct (space1 a) eqn:Ea; [exact IH2|].
    destruct (space2 a b) eqn:Eab; [exact IH1|].
    destruct (space3 a b c) eqn:Eabc; [exact IH0|].
    cbn [whitespace_only]. by rewrite Ea, Eab, Eabc.
Qed.

(** [not s.strip()] holds exactly for the empty and the
    white-space-only strings. *)
Lemma strip_falsy_iff s :
  truthy (strip s) = false ↔ whitespace_only s = true.
Proof.
  unfold strip. rewrite <- whitespace_only_lstrip, <- rstrip_empty_iff.
  destruct (rstrip (lstrip s)); simpl; split; congruence.
Qed.

Lemma whitespace_only_space1 a t :
  space1 a = true → whitespace_only (String a t) = whitespace_only t.
Proof. intros H. cbn [whitespace_only]. by rewrite H. Qed.

Lemma append_cons a s t : String a s +:+ t = String a (s +:+ t).
Proof. reflexivity. Qed.

Lemma prefix_app_iff p s : String.prefix p s = true ↔ ∃ t, s = p +:+ t.
Proof.
  revert s. induction p as [|a p IH]; intros s.
  - split; [intros _; by exists s | by destruct s].
  - destruct s as [|b s].
    + split; [done | intros [t Ht]; discriminate].
    + simpl. destruct (ascii_dec a b) as [->|Hne].
      * rewrite IH. split; intros [t Ht]; exists t.
        -- by rewrite append_cons, Ht.
        -- rewrite append_cons in Ht. by injection Ht.
      * split; [done|]. intros [t Ht]. rewrite append_cons in Ht.
        injection Ht. congruence.
Qed.

Lemma contains_nil sub : contains sub "" = String.prefix sub "".
Proof. unfold contains. by rewrite orb_false_r. Qed.

Lemma contains_cons sub a s :
  contains sub (String a s) = String.prefix sub (String a s) || contains sub s.
Proof. reflexivity. Qed.

(** [sub in s] is the substring relation. *)
Lemma contains_iff sub s :
  contains sub s = true ↔ ∃ pre post, s = pre +:+ sub +:+ post.
Proof.
  induction s as [|a s IH].
  - rewrite contains_nil, prefix_app_iff. split.
    + intros [t Ht]. by exists "", t.
    + intros [pre [post H]]. destruct pre; [by exists post|discriminate].
  - rewrite contains_cons, orb_true_iff, prefix_app_iff, IH. split.
    + intros [[t Ht]|[pre [post H]]].
      * by exists "", t.
      * exists (String a pre), post. by rewrite H.
    + intros [pre [post H]]. destruct pre as [|b pre].
      * left. by exists post.
      * right. exists pre, post. rewrite append_cons in H. by injection H.
Qed.
End PyStrFacts.

(** ** Dictionaries *)

Section DictFacts.
Context {V : Type}.
Implicit Types (d : list (string * V)) (k : string) (v : V).

Lemma dict_get_set_eq k v d : dict_get k (dict_set k v d) = Some v.
Proof.
  induction d as [|[k' v'] d IH]; simpl.
  - by rewrite String.eqb_refl.
  - destruct (String.eqb k' k) eqn:E; simpl; rewrite E; [done | exact IH].
Qed.

Lemma dict_get_set_ne k k' v d :
  k ≠ k' → dict_get k' (dict_set k v d) = dict_get k' d.
Proof.
  intros Hne. induction d as [|[k0 v0] d IH]; simpl.
  - destruct (String.eqb_spec k k'); [done | done].
  - destruct (String.eqb_spec k0 k) as [->|Hk0]; simpl.
    + destruct (String.eqb_spec k k'); [done | done].
    + destruct (String.eqb_spec k0 k'); [done | exact IH].
Qed.

Lemma dict_keys_set_mem k v d :
  dict_mem k d = true → dict_keys (dict_set k v d) = dict_keys d.
Proof.
  unfold dict_mem, dict_keys. induction d as [|[k0 v0] d IH]; simpl; [done|].
  destruct (String.eqb_spec k0 k) as [->|Hk0]; simpl; [done|].
  intros H. f_equal. by apply IH.
Qed.

Lemma dict_mem_keys k d : dict_mem k d = true ↔ k ∈ dict_keys d.
Proof.
  unfold dict_mem, dict_keys. induction d as [|[k0 v0] d IH]; simpl.
  - split; [done | by intros ?%elem_of_nil].
  - rewrite elem_of_cons. destruct (String.eqb_spec k0 k) as [->|Hk0].
    + split; auto.
    + rewrite IH. split; [auto | intros [?|?]; [congruence | done]].
Qed.

Lemma dict_get_Some_mem k v d : dict_get k d = Some v → dict_mem k d = true.
Proof. unfold dict_mem. by intros ->. Qed.

Lemma dict_mem_get k d : dict_mem k d = true → ∃ v, dict_get k d = Some v.
Proof. unfold dict_mem. destruct (dict_get k d); [eauto | done]. Qed.
End DictFacts.

(** ** Comparison of modification times *)

Lemma Qgtb_iff (a b : Q) : Qgtb a b = true ↔ (b < a)%Q.
Proof.
  unfold Qgtb. rewrite negb_true_iff. split.
  - intros H. apply Qnot_le_lt. intros Hle.
    apply Qle_bool_iff in Hle. congruence.
  - intros H. destruct (Qle_bool a b) eqn:E; [|done].
    apply Qle_bool_iff in E. by apply Qlt_not_le in H.
Qed.

(** ** The three category keys are an invariant of the handler *)

Lemma load_existing_file_keys env d self item :
  item.1 ∈ dict_keys (roots self) →
  dict_keys (roots (load_existing_file env d self item)) = dict_keys (roots self)
  ∧ output_dir (load_existing_file env d self item) = output_dir self
  ∧ category_files (load_existing_file env d self item) = category_files self.
Proof.
  destruct item as [category filename]. simpl. intros Hin.
  destruct (d !! _) as [f|]; [|done].
  destruct (ET_parse f); [|done]. simpl.
  split; [|done]. apply dict_keys_set_mem. by apply dict_mem_keys.
Qed.

Lemma load_existing_files_keys env d items self :
  Forall (λ item, item.1 ∈ dict_keys (roots self)) items →
  dict_keys (roots (fold_left (load_existing_file env d) items self))
    = dict_keys (roots self)
  ∧ output_dir (fold_left (load_existing_file env d) items self) = output_dir self
  ∧ category_files (fold_left (load_existing_file env d) items self)
    = category_files self.
Proof.
  revert self. induction items as [|item items IH]; intros self Hall; [done|].
  inversion Hall as [|? ? Hi Hrest]; subst. simpl.
  destruct (load_existing_file_keys env d self item Hi) as (Hk & Ho & Hc).
  destruct (IH (load_existing_file env d self item)) as (Hk' & Ho' & Hc').
  { by rewrite Hk. }
  by rewrite Hk', Ho', Hc', Hk, Ho, Hc.
Qed.

Lemma XMLHandler_init_built_for env config d :
  built_for config (XMLHandler_init env (output_folder config) config d).
Proof.
  unfold XMLHandler_init, _load_existing_files, built_for, has_categories.
  match goal with |- context [fold_left _ _ ?self] =>
    destruct (load_existing_files_keys env d (category_files self) self)
      as (Hk & Ho & Hc)
  end.
  { simpl. unfold dict_keys. simpl.
    repeat constructor; simpl; rewrite !elem_of_cons; auto. }
  simpl in *. by rewrite Hk, Ho, Hc.
Qed.

Lemma add_entry_has_categories s category filename text metadata :
  has_categories (xml_handler s) →
  has_categories (xml_handler (exec (add_entry category filename text metadata) s)).
Proof.
  unfold has_categories, add_entry, _entry_exists. py_unfold. intros Hk.
  destruct (dict_mem category (roots (xml_handler s))) eqn:Hm; simpl; [|done].
  destruct (dict_mem_get _ _ Hm) as [root Hroot]. rewrite Hroot.
  destruct (any_filename _ _); simpl; [done|].
  rewrite Hroot. simpl. by rewrite dict_keys_set_mem.
Qed.

(** ** C7: invalid categories *)

(** C7.  On a handler holding the three category keys, [add_entry] raises
    if and only if the category is not one of external, internal and
    client; the exception is the [ValueError] "Invalid category: ..."
    and leaves [add_entry] (it is not caught there); whenever
    [add_entry] raises, the system state, and with it every category
    document, is what it was before the call. *)
Theorem add_entry_invalid_category s category filename text metadata :
  has_categories (xml_handler s) →
  ((∃ e, eval (add_entry category filename text metadata) s = Raise e)
     ↔ category ∉ categories)
  ∧ (category ∉ categories →
     eval (add_entry category filename text metadata) s
       = Raise (ValueError ("Invalid category: " +:+ category)))
  ∧ (∀ e, eval (add_entry category filename text metadata) s = Raise e →
          exec (add_entry category filename text metadata) s = s).
Proof.
  intros Hk. unfold has_categories in Hk.
  assert (Hmem : dict_mem category (roots (xml_handler s)) = true
                 ↔ category ∈ categories).
  { by rewrite dict_mem_keys, Hk. }
  unfold add_entry, _entry_exists. py_unfold.
  destruct (dict_mem category (roots (xml_handler s))) eqn:Hm; simpl.
  - destruct (dict_mem_get _ _ Hm) as [root Hroot]. rewrite Hroot.
    assert (Hin : category ∈ categories) by by apply Hmem.
    destruct (any_filename _ _); simpl.
    + split_and!; [split; [by intros [e He] | done] | done | done].
    + split_and!; [split; [by intros [e He] | done] | done | done].
  - assert (Hnin : category ∉ categories).
    { intros Hin. apply Hmem in Hin. congruence. }
    split_and!; [split; eauto | done | done].
Qed.

Lemma add_entry_invalid_category_witness :
  let s := fresh (table_env [] [] [] [] []) example_config in
  eval (add_entry "archive" "a.pdf" "text" None) s
    = Raise (ValueError "Invalid category: archive")
  ∧ exec (add_entry "archive" "a.pdf" "text" None) s = s.
Proof.
  intros s.
  destruct (add_entry_invalid_category s "archive" "a.pdf" "text" None)
    as (_ & Hraise & Hsame).
  - apply XMLHandler_init_built_for.
  - split.
    + apply Hraise. solve_not_elem.
    + eapply Hsame. apply Hraise. solve_not_elem.
Defined.

(** ** C3: when a file is due *)

(** C3.  [needs_update] returns false for a path that does not exist;
    for an existing path it returns true exactly when the current
    modification time is strictly greater than the recorded one (0 when
    the path is not tracked), so equal times give false; it changes
    nothing. *)
Theorem needs_update_spec env file_path s :
  (os_path_getmtime env file_path = None →
     eval (needs_update env file_path) s = Ok false)
  ∧ (∀ current, os_path_getmtime env file_path = Some current →
       ∃ b, eval (needs_update env file_path) s = Ok b
            ∧ (b = true ↔ (recorded s file_path < current)%Q))
  ∧ (∀ current, os_path_getmtime env file_path = Some current →
       (current == recorded s file_path)%Q →
       eval (needs_update env file_path) s = Ok false)
  ∧ (tracked_files (file_tracker s) !! file_path = None →
       recorded s file_path = 0%Q)
  ∧ exec (needs_update env file_path) s = s.
Proof.
  unfold needs_update, recorded. py_unfold. split_and!.
  - by intros ->.
  - intros current ->. simpl. eexists. split; [done|]. apply Qgtb_iff.
  - intros current -> Heq. simpl. f_equal.
    destruct (Qgtb _ _) eqn:E; [|done].
    apply Qgtb_iff in E. rewrite Heq in E. by apply Qlt_irrefl in E.
  - by intros ->.
  - by destruct (os_path_getmtime env file_path).
Qed.

(** ** C9: a corrupt tracker file *)

(** C9.  A tracker file that exists and is not valid JSON makes
    [FileTracker.__init__] raise the decoder's error, and start-up
    ([__init__] of the pipeline, hence [main]) fails with it, leaving
    the disk as it was; an absent file gives the empty mapping; and a
    tracker that was constructed holds either the empty mapping of an
    absent file or the mapping read from the file, never a fallback for
    an unreadable one. *)
Theorem load_tracker_corrupt_is_fatal env config tracker_file d :
  (∀ f, d !! tracker_file = Some f → (∀ data, f ≠ FJson data) →
        FileTracker_init tracker_file d = Raise JSONDecodeError)
  ∧ (∀ f, d !! "file_tracker.json" = Some f → (∀ data, f ≠ FJson data) →
        Pipeline_init env config d = Raise JSONDecodeError
        ∧ main env config d = (Raise JSONDecodeError, d))
  ∧ (d !! tracker_file = None →
        FileTracker_init tracker_file d = Ok (mkFileTracker tracker_file ∅))
  ∧ (∀ ft, FileTracker_init tracker_file d = Ok ft →
        (d !! tracker_file = None ∧ tracked_files ft = ∅)
        ∨ d !! tracker_file = Some (FJson (tracked_files ft))).
Proof.
  assert (Hcorrupt : ∀ tf f, d !! tf = Some f → (∀ data, f ≠ FJson data) →
            FileTracker_init tf d = Raise JSONDecodeError).
  { intros tf f Hf Hnj. unfold FileTracker_init, _load_tracker. rewrite Hf.
    destruct f; [by destruct (Hnj data) | done | done]. }
  split_and!.
  - apply Hcorrupt.
  - intros f Hf Hnj. unfold main, Pipeline_init.
    by rewrite (Hcorrupt _ f Hf Hnj).
  - intros Hf. unfold FileTracker_init, _load_tracker. by rewrite Hf.
  - intros ft. unfold FileTracker_init, _load_tracker.
    destruct (d !! tracker_file) as [[data| |]|]; intros [= <-]; simpl; auto.
Qed.

(** ** C8: files filtered out by extension *)

(** C8.  A file whose lower-cased extension is in the ignore set, or is
    not in the document set, is skipped, and handling it leaves the
    whole system state unchanged: the tracked mapping in memory, the
    files on disk (the persisted mapping among them) and every category
    document. *)
Theorem process_file_filtered_extension env config file_path subdir s :
  let extension := str_lower env (snd (os_path_splitext env file_path)) in
  extension ∈ ignore config ∨ extension ∉ documents config →
  _process_file env config file_path subdir s = (Ok skipped, s).
Proof.
  intros extension H. unfold _process_file. fold extension.
  destruct (bool_decide (extension ∈ ignore config)) eqn:Hi; [done|].
  destruct (bool_decide (extension ∈ documents config)) eqn:Hd; simpl; [|done].
  apply bool_decide_eq_false in Hi. apply bool_decide_eq_true in Hd.
  by destruct H.
Qed.

Lemma process_file_filtered_extension_witness :
  let env := table_env [("/data/external/notes.tmp", 5%Q)] [] [] [] [] in
  let s := fresh env example_config in
  _process_file env example_config "/data/external/notes.tmp" "/data/external" s
    = (Ok skipped, s)
  ∧ _process_file env example_config "/data/external/logo.png" "/data/external" s
    = (Ok skipped, s).
Proof.
  intros env s. split.
  - apply (process_file_filtered_extension env example_config
             "/data/external/notes.tmp" "/data/external" s).
    left. apply (bool_decide_unpack _). vm_compute. exact I.
  - apply (process_file_filtered_extension env example_config
             "/data/external/logo.png" "/data/external" s).
    right. apply (bool_decide_unpack _). vm_compute. exact I.
Defined.

(** ** C4: documents without text *)

Lemma needs_update_exec env file_path s : exec (needs_update env file_path) s = s.
Proof.
  unfold needs_update. py_unfold. by destruct (os_path_getmtime env file_path).
Qed.

Lemma needs_update_run env file_path s :
  needs_update env file_path s = (eval (needs_update env file_path) s, s).
Proof.
  rewrite <- (needs_update_exec env file_path s) at 3.
  unfold eval, exec. by destruct (needs_update env file_path s).
Qed.

(** C4.  When the extraction of a file yields an empty or
    white-space-only text (white space as [str.strip] has it, Unicode
    white space included), handling the file changes nothing: no entry is
    added to any document and the tracked mapping and the disk stay as
    they were.  If the file got as far as the extraction, the outcome is
    "error", and the file is still due afterwards. *)
Theorem process_file_empty_text env config file_path subdir s text :
  extract_text env file_path = Ok text →
  PyStr.whitespace_only text = true →
  exec (_process_file env config file_path subdir) s = s
  ∧ (∀ category,
       reaches_extraction env config file_path subdir s category →
       eval (_process_file env config file_path subdir) s = Ok error
       ∧ eval (needs_update env file_path)
              (exec (_process_file env config file_path subdir) s) = Ok true).
Proof.
  intros Htext Hws. apply strip_falsy_iff in Hws.
  assert (Hrun : ∀ category,
    try_except
      (text <~ lift (extract_text env file_path) ;;
       if negb (PyStr.truthy (PyStr.strip text)) then ret error
       else
         add_entry category (os_path_basename env file_path) text
           (Some [("processed_date", datetime_now env file_path)]) ;;;
         update_file_timestamp env file_path ;;;
         ret processed)
      (fun _ => ret error) s = (Ok error, s)).
  { intros category. py_unfold. rewrite Htext. simpl. by rewrite Hws. }
  assert (Hexec : exec (_process_file env config file_path subdir) s = s).
  { unfold _process_file, exec.
    destruct (bool_decide _); [done|]. destruct (negb (bool_decide _)); [done|].
    unfold bind at 1. rewrite needs_update_run.
    destruct (eval (needs_update env file_path) s) as [[|]|]; simpl; try done.
    destruct (_determine_category env config subdir); [|done].
    by rewrite Hrun. }
  split; [exact Hexec|].
  intros category (Hi & Hd & Hdue & Hcat). rewrite Hexec. split; [|exact Hdue].
  unfold _process_file, eval.
  rewrite (bool_decide_eq_false_2 _ Hi), (bool_decide_eq_true_2 _ Hd). simpl.
  unfold bind at 1. rewrite needs_update_run, Hdue. simpl.
  by rewrite Hcat, Hrun.
Qed.

Lemma process_file_empty_text_witness :
  let env :=
    table_env [("/data/client/scan.pdf", 7%Q)] []
      [("/data/client/scan.pdf",
        PdfPages [PageText (" " +:+ PyStr.nbsp +:+ PyStr.em_space); PageRaises]
                 false)]
      [] [] in
  let s := fresh env example_config in
  exec (_process_file env example_config "/data/client/scan.pdf" "/data/client") s = s
  ∧ eval (_process_file env example_config "/data/client/scan.pdf" "/data/client") s
    = Ok error.
Proof.
  intros env s.
  destruct (process_file_empty_text env example_config
              "/data/client/scan.pdf" "/data/client" s
              (" " +:+ PyStr.nbsp +:+ PyStr.em_space))
    as [Hexec Hout].
  - vm_compute. reflexivity.
  - reflexivity.
  - split; [exact Hexec|].
    apply (Hout "client"). unfold reaches_extraction. split_and!.
    + apply (bool_decide_unpack _). vm_compute. exact I.
    + apply (bool_decide_unpack _). vm_compute. exact I.
    + vm_compute. reflexivity.
    + vm_compute. reflexivity.
Defined.

(** ** C5: the category of a directory *)

(** C5.  [_determine_category] is the first match, in the order
    external, internal, client, of the lower-cased configured folder
    names as substrings of the lower-cased directory path with
    backslashes turned into slashes: external is chosen whenever its
    folder name matches, internal when it matches and external does
    not, client when it alone matches; and when none matches the file is
    skipped, with the state unchanged. *)
Theorem determine_category_first_match env config subdir :
  let M := fun folder => folder_matches env folder subdir in
  _determine_category env config subdir = first_match env config subdir
  ∧ (_determine_category env config subdir = Some "external"
       ↔ M (folder_external config))
  ∧ (_determine_category env config subdir = Some "internal"
       ↔ ¬ M (folder_external config) ∧ M (folder_internal config))
  ∧ (_determine_category env config subdir = Some "client"
       ↔ ¬ M (folder_external config) ∧ ¬ M (folder_internal config)
         ∧ M (folder_client config))
  ∧ (_determine_category env config subdir = None
       ↔ ¬ M (folder_external config) ∧ ¬ M (folder_internal config)
         ∧ ¬ M (folder_client config))
  ∧ (_determine_category env config subdir = None →
       ∀ file_path s,
         _process_file env config file_path subdir s = (Ok skipped, s)).
Proof.
  intros M.
  assert (HM : ∀ folder,
    PyStr.contains (str_lower env folder)
      (str_lower env (PyStr.replace_char "\" "/" subdir)) = true ↔ M folder).
  { intros folder. apply contains_iff. }
  unfold _determine_category, first_match. simpl.
  pose proof (HM (folder_external config)) as He.
  pose proof (HM (folder_internal config)) as Hi.
  pose proof (HM (folder_client config)) as Hc.
  assert (Hb : ∀ (b : bool) P, (b = true ↔ P) → if b then P else ¬ P).
  { intros [] P [H1 H2]; [by apply H1 | intros HP; by apply H2 in HP]. }
  apply Hb in He, Hi, Hc.
  destruct (PyStr.contains (str_lower env (folder_external config)) _) eqn:Ee;
  [|destruct (PyStr.contains (str_lower env (folder_internal config)) _) eqn:Ei;
    [|destruct (PyStr.contains (str_lower env (folder_client config)) _) eqn:Ec]];
  simpl;
  (split_and!; [done | try (split; [first [discriminate | tauto] | tauto]) .. | ]);
  try discriminate.
    intros _ file_path s. unfold _process_file.
    destruct (bool_decide _); [done|]. destruct (negb (bool_decide _)); [done|].
    unfold bind at 1. rewrite needs_update_run.
    destruct (eval (needs_update env file_path) s) as [[|]|] eqn:E; simpl; try done.
    + unfold _determine_category. by rewrite Ee, Ei, Ec.
    + (* needs_update does not raise *)
      exfalso. revert E. unfold needs_update. py_unfold.
      by destruct (os_path_getmtime env file_path).
Qed.

(** ** C10: what [extract_text] returns and when it raises *)

Lemma pdf_supported : ".pdf" ∈ supported_extensions.
Proof. apply elem_of_union. left. by apply elem_of_singleton. Qed.

Lemma docx_supported : ".docx" ∈ supported_extensions.
Proof. apply elem_of_union. right. by apply elem_of_singleton. Qed.

Lemma extract_from_pdf_ok env file_path :
  _extract_from_pdf env file_path =
    Ok match PdfReader env file_path with
       | PdfPages pages false => PyStr.join PyStr.nl (pdf_page_texts pages)
       | _ => ""
       end.
Proof.
  unfold _extract_from_pdf, try_result.
  destruct (PdfReader env file_path) as [|pages []]; simpl; try done.
  by destruct (pdf_page_texts pages).
Qed.

Lemma extract_from_docx_ok env file_path :
  ∃ text, _extract_from_docx env file_path = Ok text
          ∧ (Document env file_path = DocxFails → text = "").
Proof.
  unfold _extract_from_docx, try_result.
  destruct (Document env file_path); simpl;
    (eexists; split; [reflexivity | by intros]).
Qed.

(** C10 (as the code has it).  For a path whose lower-cased extension
    is .pdf or .docx, [extract_text] never raises; it returns the empty
    string when the file cannot be opened or read through (opening the
    PDF fails, the iteration over its pages fails, opening the DOCX
    fails), whereas a PDF page whose extraction fails is only left out:
    the result is then the text of the remaining pages joined by
    newlines.  [extract_text] raises exactly when the extension is
    outside the supported set, and what it raises is the [ValueError]
    "Unsupported file type: ...". *)
Theorem extract_text_total env file_path :
  let extension := str_lower env (snd (os_path_splitext env file_path)) in
  (extension ∈ supported_extensions →
     ∃ text, extract_text env file_path = Ok text)
  ∧ ((∃ e, extract_text env file_path = Raise e)
       ↔ extension ∉ supported_extensions)
  ∧ (extension ∉ supported_extensions →
     extract_text env file_path
       = Raise (ValueError ("Unsupported file type: " +:+ extension)))
  ∧ (extension = ".pdf" →
     PdfReader env file_path = PdfOpenFails
     ∨ (∃ pages, PdfReader env file_path = PdfPages pages true) →
     extract_text env file_path = Ok "")
  ∧ (extension = ".docx" → Document env file_path = DocxFails →
     extract_text env file_path = Ok "")
  ∧ (extension = ".pdf" →
     ∀ pages, PdfReader env file_path = PdfPages pages false →
     extract_text env file_path
       = Ok (PyStr.join PyStr.nl (pdf_page_texts pages))).
Proof.
  intros extension. unfold extract_text. fold extension. clearbody extension.
  destruct (extract_from_docx_ok env file_path) as (dtext & Hd & Hdf).
  rewrite extract_from_pdf_ok, Hd.
  destruct (bool_decide (extension ∈ supported_extensions)) eqn:Hs; simpl.
  - apply bool_decide_eq_true in Hs.
    assert (Hok : ∃ text,
      try_result (if String.eqb extension ".pdf"
                  then Ok match PdfReader env file_path with
                          | PdfPages pages false =>
                              PyStr.join PyStr.nl (pdf_page_texts pages)
                          | _ => ""
                          end
                  else Ok dtext) (fun _ => Ok "") = Ok text).
    { destruct (String.eqb extension ".pdf"); simpl; eauto. }
    split_and!.
    + intros _. exact Hok.
    + split; [|done]. intros [e He]. destruct Hok as [text Ht]. congruence.
    + done.
    + intros -> Hfail. simpl.
      destruct Hfail as [Hp | [pages Hp]]; by rewrite Hp.
    + intros -> Hfail. simpl. by rewrite (Hdf Hfail).
    + intros -> pages Hp. by rewrite Hp.
  - apply bool_decide_eq_false in Hs. split_and!.
    + done.
    + split; eauto.
    + done.
    + intros -> _. exfalso. apply Hs, pdf_supported.
    + intros -> _. exfalso. apply Hs, docx_supported.
    + intros -> pages _. exfalso. apply Hs, pdf_supported.
Qed.

(** C10 as claimed fails: a PDF one of whose pages cannot be extracted
    still yields the text of the other pages, not the empty string. *)
Lemma extract_text_page_failure_keeps_text :
  let env :=
    table_env [] []
      [("/data/external/a.pdf", PdfPages [PageText "hello"; PageRaises] false)]
      [] [] in
  str_lower env (snd (os_path_splitext env "/data/external/a.pdf")) = ".pdf"
  ∧ PdfReader env "/data/external/a.pdf"
      = PdfPages [PageText "hello"; PageRaises] false
  ∧ extract_text env "/data/external/a.pdf" = Ok "hello"
  ∧ extract_text env "/data/external/a.pdf" ≠ Ok "".
Proof. vm_compute. split_and!; done. Qed.

(** ** Elements and pretty-printing *)

Lemma indent_tag n e : tag (_indent n e) = tag e.
Proof.
  destruct e as [tg ats tx tl [|c cs]]; simpl; [|done].
  by destruct (negb (Nat.eqb n 0) && blank tl).
Qed.

Lemma indent_attrib n e : attrib (_indent n e) = attrib e.
Proof.
  destruct e as [tg ats tx tl [|c cs]]; simpl; [|done].
  by destruct (negb (Nat.eqb n 0) && blank tl).
Qed.

Lemma indent_children n e :
  children (_indent n e) = map (_indent (S n)) (children e).
Proof.
  destruct e as [tg ats tx tl [|c cs]]; simpl; [|done].
  by destruct (negb (Nat.eqb n 0) && blank tl).
Qed.

Lemma indent_text n e :
  leaf e ∨ blank (text e) = false → text (_indent n e) = text e.
Proof.
  unfold leaf. destruct e as [tg ats tx tl [|c cs]]; simpl.
  - intros _. by destruct (negb (Nat.eqb n 0) && blank tl).
  - intros [?|Hb]; [done|]. by rewrite Hb.
Qed.


Lemma indent_leaf_same_entry n e : leaf e → same_entry e (_indent n e).
Proof.
  intros Hl. unfold same_entry.
  rewrite indent_tag, indent_attrib, indent_text; auto.
Qed.


Lemma Forall2_indent_same n (l : list Element) :
  Forall leaf l → Forall2 same_entry l (map (_indent n) l).
Proof.
  induction 1; constructor; auto using indent_leaf_same_entry.
Qed.

Lemma fold_set_shape md e :
  tag (fold_left (λ e kv, Element_set kv.1 kv.2 e) md e) = tag e
  ∧ children (fold_left (λ e kv, Element_set kv.1 kv.2 e) md e) = children e.
Proof.
  revert e. induction md as [|kv md IH]; intros e; [done|].
  simpl. destruct (IH (Element_set kv.1 kv.2 e)) as [-> ->]. done.
Qed.

Lemma new_entry_is_new filename text metadata :
  is_new_entry (new_entry filename text metadata).
Proof.
  unfold is_new_entry, leaf, new_entry.
  destruct metadata as [[|kv md]|]; simpl; try done.
  match goal with |- context [fold_left ?f md ?e] =>
    destruct (fold_set_shape md e) as [-> ->] end.
  done.
Qed.

(** ** Documents only grow *)

Lemma grown_refl root : grown root root.
Proof.
  exists []. rewrite app_nil_r. split; [by destruct root | constructor].
Qed.

Lemma grown_trans r1 r2 r3 : grown r1 r2 → grown r2 r3 → grown r1 r3.
Proof.
  intros (n1 & -> & H1) (n2 & -> & H2). simpl.
  exists (n1 ++ n2). rewrite app_assoc. split; [done|]. by apply Forall_app.
Qed.

Lemma grown_append root entry :
  is_new_entry entry → grown root (Element_append entry root).
Proof. intros H. exists [entry]. split; [done|]. constructor; [done | constructor]. Qed.

Lemma store_grown_refl self : store_grown self self.
Proof. unfold store_grown. split_and!; try done. eauto using grown_refl. Qed.

Lemma store_grown_trans a b c :
  store_grown a b → store_grown b c → store_grown a c.
Proof.
  intros (Ho1 & Hc1 & Hk1 & H1) (Ho2 & Hc2 & Hk2 & H2).
  unfold store_grown. split_and!; try congruence.
  intros category root Hr.
  destruct (H1 _ _ Hr) as (r2 & Hr2 & Hg2).
  destruct (H2 _ _ Hr2) as (r3 & Hr3 & Hg3).
  eauto using grown_trans.
Qed.

(** What a call of [add_entry] on a known category does. *)
Lemma add_entry_run s category filename text metadata root :
  dict_get category (roots (xml_handler s)) = Some root →
  add_entry category filename text metadata s =
    (Ok tt,
     if any_filename filename (findall_entry_with_filename root) then s
     else set_xml_handler
            (mkXMLHandler (output_dir (xml_handler s))
               (category_files (xml_handler s))
               (dict_set category
                  (Element_append (new_entry filename text metadata) root)
                  (roots (xml_handler s)))) s).
Proof.
  intros Hroot. unfold add_entry, _entry_exists. py_unfold.
  rewrite (dict_get_Some_mem _ _ _ Hroot). simpl. rewrite Hroot.
  destruct (any_filename _ _); simpl; [done|]. by rewrite Hroot.
Qed.

Lemma add_entry_frame s category filename text metadata :
  file_tracker (exec (add_entry category filename text metadata) s) = file_tracker s
  ∧ disk (exec (add_entry category filename text metadata) s) = disk s.
Proof.
  destruct (dict_get category (roots (xml_handler s))) as [root|] eqn:Hroot.
  - unfold exec. rewrite (add_entry_run _ _ _ _ _ _ Hroot). simpl.
    by destruct (any_filename _ _).
  - unfold add_entry, exec, dict_mem. py_unfold. by rewrite Hroot.
Qed.

Lemma add_entry_grows s category filename text metadata :
  store_grown (xml_handler s)
    (xml_handler (exec (add_entry category filename text metadata) s)).
Proof.
  destruct (dict_get category (roots (xml_handler s))) as [root|] eqn:Hroot.
  - unfold exec. rewrite (add_entry_run _ _ _ _ _ _ Hroot). simpl.
    destruct (any_filename _ _); [apply store_grown_refl|].
    unfold store_grown. simpl. split_and!; try done.
    + apply dict_keys_set_mem. by eapply dict_get_Some_mem.
    + intros c r Hr. destruct (decide (category = c)) as [->|Hne].
      * rewrite dict_get_set_eq. eexists. split; [done|].
        assert (r = root) as -> by congruence.
        apply grown_append, new_entry_is_new.
      * rewrite dict_get_set_ne by done. eauto using grown_refl.
  - unfold add_entry, exec, dict_mem. py_unfold. rewrite Hroot. simpl.
    apply store_grown_refl.
Qed.

Lemma update_file_timestamp_xml env file_path s :
  xml_handler (exec (update_file_timestamp env file_path) s) = xml_handler s.
Proof.
  unfold update_file_timestamp, _save_tracker, exec. py_unfold.
  destruct (os_path_getmtime env file_path); simpl; [|done].
  by destruct (writable env _).
Qed.

Lemma process_file_grows env config file_path subdir s :
  store_grown (xml_handler s)
    (xml_handler (exec (_process_file env config file_path subdir) s)).
Proof.
  unfold _process_file, exec.
  destruct (bool_decide _); [apply store_grown_refl|].
  destruct (negb (bool_decide _)); [apply store_grown_refl|].
  unfold bind at 1. rewrite needs_update_run.
  destruct (eval (needs_update env file_path) s) as [[|]|]; simpl;
    try apply store_grown_refl.
  destruct (_determine_category env config subdir) as [category|];
    [|apply store_grown_refl].
  unfold try_except, bind at 1, lift.
  destruct (extract_text env file_path) as [text|e]; simpl;
    [|apply store_grown_refl].
  destruct (negb (PyStr.truthy (PyStr.strip text))); simpl;
    [apply store_grown_refl|].
  unfold bind at 1.
  pose proof (add_entry_grows s category (os_path_basename env file_path) text
                (Some [("processed_date", datetime_now env file_path)])) as Hg.
  unfold exec in Hg.
  destruct (add_entry _ _ _ _ s) as [[[]|e] s1]; simpl in *; [|exact Hg].
  unfold bind.
  pose proof (update_file_timestamp_xml env file_path s1) as Hu.
  unfold exec in Hu.
  destruct (update_file_timestamp env file_path s1) as [[[]|e] s2];
    simpl in *; by rewrite Hu.
Qed.

Lemma process_files_grows env config files c s :
  store_grown (xml_handler s)
    (xml_handler (exec (process_files env config files c) s)).
Proof.
  revert c s. induction files as [|[file_path subdir] files IH]; intros c s.
  - apply store_grown_refl.
  - unfold exec. simpl.
    pose proof (process_file_grows env config file_path subdir s) as Hg.
    unfold exec in Hg.
    destruct (_process_file env config file_path subdir s) as [result s1].
    eapply store_grown_trans; [exact Hg | apply IH].
Qed.

Lemma process_files_ok env config files c s :
  ∃ c', eval (process_files env config files c) s = Ok c'.
Proof.
  revert c s. induction files as [|[file_path subdir] files IH]; intros c s.
  - by exists c.
  - unfold eval. simpl.
    destruct (_process_file env config file_path subdir s) as [result s1].
    apply IH.
Qed.

(** ** Saving and loading the three documents *)

Lemma has_categories_shape self :
  has_categories self →
  ∃ r1 r2 r3,
    roots self = [("external", r1); ("internal", r2); ("client", r3)].
Proof.
  unfold has_categories, dict_keys, categories.
  destruct (roots self) as [|[k1 r1] [|[k2 r2] [|[k3 r3] [|? ?]]]];
    simpl; intros H; simplify_eq. by exists r1, r2, r3.
Qed.

Lemma store_grown_built_for config self self' :
  built_for config self → store_grown self self' → built_for config self'.
Proof.
  intros (Ho & Hc & Hk) (Ho' & Hc' & Hk' & _).
  unfold built_for, has_categories in *. split_and!; congruence.
Qed.

Lemma save_xml_run env category root filename s :
  _save_xml env category root filename s =
    (Ok tt,
     mkSys (file_tracker s)
       (mkXMLHandler (output_dir (xml_handler s)) (category_files (xml_handler s))
          (dict_set category (_indent 0 root) (roots (xml_handler s))))
       (write_if env (os_path_join env (output_dir (xml_handler s)) filename)
          (_indent 0 root) (disk s))).
Proof.
  unfold _save_xml, write_if, set_xml_handler, set_disk. py_unfold. simpl.
  by destruct (writable env _).
Qed.

(** [save_all] pretty-prints the three roots in place and attempts the
    three writes in the order external, internal, client. *)
Lemma save_all_run env config s r1 r2 r3 :
  built_for config (xml_handler s) →
  roots (xml_handler s) = [("external", r1); ("internal", r2); ("client", r3)] →
  save_all env s =
    (Ok tt,
     mkSys (file_tracker s)
       (mkXMLHandler (output_dir (xml_handler s)) (category_files (xml_handler s))
          [("external", _indent 0 r1); ("internal", _indent 0 r2);
           ("client", _indent 0 r3)])
       (write_if env (output_path env config (client_file config)) (_indent 0 r3)
          (write_if env (output_path env config (internal_file config)) (_indent 0 r2)
             (write_if env (output_path env config (external_file config))
                (_indent 0 r1) (disk s))))).
Proof.
  destruct s as [ft [od cf rs] d]. unfold built_for, output_path.
  simpl. intros (-> & -> & _) ->.
  unfold save_all, for_each, bind, get, ret. simpl.
  rewrite save_xml_run. simpl. rewrite save_xml_run. simpl.
  rewrite save_xml_run. simpl. reflexivity.
Qed.

Lemma load_existing_file_run env d self category filename :
  load_existing_file env d self (category, filename) =
    mkXMLHandler (output_dir self) (category_files self)
      match d !! os_path_join env (output_dir self) filename with
      | Some (FXml root) => dict_set category root (roots self)
      | _ => roots self
      end.
Proof.
  unfold load_existing_file.
  destruct (d !! _) as [[| |]|]; simpl; by destruct self.
Qed.

(** Start-up takes the root of every output file that parses. *)
Lemma init_roots env config d :
  roots (XMLHandler_init env (output_folder config) config d) =
    [("external", loaded_root env config d (external_file config));
     ("internal", loaded_root env config d (internal_file config));
     ("client", loaded_root env config d (client_file config))].
Proof.
  unfold XMLHandler_init, _load_existing_files, loaded_root, output_path.
  cbn [fold_left category_files]. rewrite !load_existing_file_run. simpl.
  destruct (d !! os_path_join env (output_folder config) (external_file config))
    as [[| |]|];
  destruct (d !! os_path_join env (output_folder config) (internal_file config))
    as [[| |]|];
  destruct (d !! os_path_join env (output_folder config) (client_file config))
    as [[| |]|]; reflexivity.
Qed.

Lemma configured_files_cases config category filename :
  (category, filename) ∈ configured_files config →
  (category = "external" ∧ filename = external_file config)
  ∨ (category = "internal" ∧ filename = internal_file config)
  ∨ (category = "client" ∧ filename = client_file config).
Proof.
  unfold configured_files. rewrite !elem_of_cons, elem_of_nil.
  intros [H|[H|[H|[]]]]; simplify_eq; auto.
Qed.

Lemma init_loads env config d category filename prior :
  (category, filename) ∈ configured_files config →
  d !! output_path env config filename = Some (FXml prior) →
  dict_get category (roots (XMLHandler_init env (output_folder config) config d))
    = Some prior.
Proof.
  intros Hin Hd. rewrite init_roots.
  destruct (configured_files_cases _ _ _ Hin) as [[-> ->]|[[-> ->]|[-> ->]]];
    simpl; unfold loaded_root; by rewrite Hd.
Qed.

Lemma NoDup_output_paths env config :
  NoDup (output_paths env config) →
  output_path env config (external_file config)
    ≠ output_path env config (internal_file config)
  ∧ output_path env config (external_file config)
    ≠ output_path env config (client_file config)
  ∧ output_path env config (internal_file config)
    ≠ output_path env config (client_file config).
Proof.
  unfold output_paths, configured_files. simpl.
  rewrite !NoDup_cons, !not_elem_of_cons. tauto.
Qed.

(** With pairwise distinct output paths, the file of a category whose
    path can be written holds what the writer made of its root. *)
Lemma written_lookup env config d r1 r2 r3 category filename root :
  NoDup (output_paths env config) →
  (category, filename) ∈ configured_files config →
  dict_get category [("external", r1); ("internal", r2); ("client", r3)]
    = Some root →
  writable env (output_path env config filename) = true →
  write_if env (output_path env config (client_file config)) r3
    (write_if env (output_path env config (internal_file config)) r2
       (write_if env (output_path env config (external_file config)) r1 d))
    !! output_path env config filename
  = Some (ET_write env root).
Proof.
  intros (H12 & H13 & H23)%NoDup_output_paths Hin Hroot Hw.
  unfold write_if.
  destruct (configured_files_cases _ _ _ Hin) as [[-> ->]|[[-> ->]|[-> ->]]];
    simpl in Hroot; simplify_eq; rewrite Hw;
    repeat match goal with
      | |- context [if writable env ?p then _ else _] =>
          destruct (writable env p)
      end;
    rewrite ?lookup_insert_eq;
    repeat (first [ done
                  | rewrite lookup_insert_eq
                  | rewrite lookup_insert_ne by congruence ]).
Qed.

(** ** C2: what a later run does to the entries of an earlier one *)



(** C2 on the failing input.  The external document of an earlier run
    holds one entry, for [old.pdf].  A run then processes a new PDF
    whose text has a form feed, a character the writer puts into the
    file as it is and that no XML 1.0 document may hold.  The run ends
    normally and counts the file as processed, but the file it leaves is
    one the parser refuses: the document produced by the run has neither
    the prior entry nor the new one.  The next run starts the category
    from an empty [Root], skips the PDF (the tracker has it) and writes
    a document without entries over the file. *)
Theorem rerun_after_form_feed_drops_prior_entries :
  let run1 := main form_feed_env example_config prior_disk in
  let reloaded := XMLHandler_init form_feed_env "/out" example_config (snd run1) in
  let run2 := main form_feed_env example_config (snd run1) in
  prior_disk !! "/out/external.xml" = Some (FXml prior_document)
  ∧ (Element_get "filename" <$> entries prior_document) = [Some "old.pdf"]
  ∧ fst run1 = Ok (mkCounts 1 0 0)
  ∧ snd run1 !! "/out/external.xml" = Some FGarbage
  ∧ (entries <$> dict_get "external" (roots reloaded)) = Some []
  ∧ fst run2 = Ok (mkCounts 0 1 0)
  ∧ snd run2 !! "/out/external.xml" = Some (FXml (ET_Element "Root"))
  ∧ entries (ET_Element "Root") = [].
Proof. split_and!; vm_compute; reflexivity. Qed.

(** ** C6: saving and loading again *)

(** What saving and loading again does keep.  Take a category document
    all of whose entries are leaf elements, as [add_entry] creates them.
    If the
    three output paths are pairwise distinct, the path of the category
    can be written, and the XML writer and parser hand back the entries
    of the pretty-printed document unchanged, then after [save_all] a
    handler initialised from the same location holds, for that
    category, a document with the same entries in the same order, each
    with the same tag, the same attribute names and values and exactly
    the same body text. *)
Theorem save_then_reload env config s category filename root parsed :
  built_for config (xml_handler s) →
  NoDup (output_paths env config) →
  (category, filename) ∈ configured_files config →
  dict_get category (roots (xml_handler s)) = Some root →
  writable env (output_path env config filename) = true →
  et_reparse env (_indent 0 root) = Some parsed →
  entries parsed = entries (_indent 0 root) →
  Forall leaf (entries root) →
  let s' := exec (save_all env) s in
  let reloaded := XMLHandler_init env (output_folder config) config (disk s') in
  ∃ root', dict_get category (roots reloaded) = Some root'
           ∧ Forall2 same_entry (entries root) (entries root').
Proof.
  intros Hbuilt Hnd Hin Hroot Hw Hparse Hentries Hleaf s' reloaded.
  destruct (has_categories_shape _ (proj2 (proj2 Hbuilt))) as (r1 & r2 & r3 & Hshape).
  assert (Hdisk : disk s' !! output_path env config filename = Some (FXml parsed)).
  { unfold s', exec. rewrite (save_all_run env config s r1 r2 r3 Hbuilt Hshape).
    simpl.
    rewrite (written_lookup env config _ _ _ _ category filename (_indent 0 root));
      try done.
    - unfold ET_write. by rewrite Hparse.
    - rewrite Hshape in Hroot.
      destruct (configured_files_cases _ _ _ Hin) as [[-> _]|[[-> _]|[-> _]]];
        simpl in *; by simplify_eq. }
  exists parsed. split.
  - by apply (init_loads env config (disk s') category filename).
  - rewrite Hentries. unfold entries. rewrite indent_children.
    by apply Forall2_indent_same.
Qed.

Lemma save_then_reload_witness :
  let env := table_env [] [] [] [] [] in
  let s :=
    exec (add_entry "client" "notes.docx" ("line 1" +:+ PyStr.nl +:+ "line 2")
            (Some [("processed_date", "2024-01-01 10:00:00")]))
         (fresh env example_config) in
  let root :=
    mkElement "Root" [] None None
      [mkElement "entry"
         [("filename", "notes.docx"); ("processed_date", "2024-01-01 10:00:00")]
         (Some ("line 1" +:+ PyStr.nl +:+ "line 2")) None []] in
  let s' := exec (save_all env) s in
  let reloaded :=
    XMLHandler_init env (output_folder example_config) example_config (disk s') in
  dict_get "client" (roots (xml_handler s)) = Some root
  ∧ ∃ root', dict_get "client" (roots reloaded) = Some root'
             ∧ Forall2 same_entry (entries root) (entries root').
Proof.
  intros env s root. split; [vm_compute; reflexivity|].
  apply (save_then_reload env example_config s "client" "client.xml" root
           (default root (Xml10.reparse (_indent 0 root)))).
  - apply XMLHandler_init_built_for.
  - vm_compute. repeat constructor; solve_not_elem.
  - unfold configured_files. rewrite !elem_of_cons. auto.
  - vm_compute. reflexivity.
  - vm_compute. reflexivity.
  - vm_compute. reflexivity.
  - vm_compute. reflexivity.
  - repeat constructor.
Defined.

(** C6 on the failing input.  [add_entry] takes a body text with a form
    feed, a character that no XML 1.0 document may hold and that the
    writer does not escape.  In memory the category has the entry;
    [save_all] writes a file that the parser refuses, and the handler
    initialised from the same location catches the parse error and
    starts the category from an empty document: the entry is gone. *)
Theorem reload_after_form_feed_loses_entries :
  let env := table_env [] [] [] [] [] in
  let s :=
    exec (add_entry "client" "scan.pdf" ("page 1" +:+ PyStr.ff +:+ "page 2") None)
         (fresh env example_config) in
  let s' := exec (save_all env) s in
  let reloaded :=
    XMLHandler_init env (output_folder example_config) example_config (disk s') in
  (∃ root, dict_get "client" (roots (xml_handler s)) = Some root
           ∧ length (entries root) = 1)
  ∧ disk s' !! "/out/client.xml" = Some FGarbage
  ∧ (∃ root', dict_get "client" (roots reloaded) = Some root'
              ∧ entries root' = []).
Proof.
  split_and!.
  - eexists. split; vm_compute; reflexivity.
  - vm_compute. reflexivity.
  - eexists. split; vm_compute; reflexivity.
Qed.

(** A carriage return in a body text comes back as a line feed. *)
Lemma reload_turns_carriage_return_into_newline :
  let env := table_env [] [] [] [] [] in
  let s :=
    exec (add_entry "client" "scan.pdf" ("line 1" +:+ PyStr.cr +:+ "line 2") None)
         (fresh env example_config) in
  let reloaded :=
    XMLHandler_init env (output_folder example_config) example_config
      (disk (exec (save_all env) s)) in
  ∃ root', dict_get "client" (roots reloaded) = Some root'
           ∧ text <$> entries root' = [Some ("line 1" +:+ PyStr.nl +:+ "line 2")].
Proof. eexists. split; vm_compute; reflexivity. Qed.

(** The pretty-printer itself rewrites the body of an entry that has
    child elements and only white space as text. *)
Lemma indent_rewrites_blank_text_of_nested_entry :
  let entry :=
    mkElement "entry" [("filename", "a.pdf")] (Some (PyStr.nl +:+ PyStr.nl)) None
      [ET_Element "note"] in
  text <$> entries (_indent 0 (mkElement "Root" [] None None [entry]))
    = [Some (PyStr.nl +:+ "    ")].
Proof. reflexivity. Qed.

(** ** C1: adding the same file name twice *)

Lemma descendants_append e root :
  descendants (Element_append e root) = descendants root ++ Element_iter e.
Proof.
  unfold descendants, Element_append. simpl.
  rewrite flat_map_app. simpl. by rewrite app_nil_r.
Qed.

Lemma iter_leaf e : leaf e → Element_iter e = [e].
Proof. unfold leaf. destruct e; simpl. by intros ->. Qed.

Lemma any_filename_iff filename root :
  any_filename filename (findall_entry_with_filename root) = true
  ↔ ∃ e, e ∈ descendants root ∧ entry_named filename e.
Proof.
  unfold any_filename, findall_entry_with_filename, entry_named, Element_get.
  rewrite existsb_exists. split.
  - intros (e & Hin & He). apply list_elem_of_In, list_elem_of_filter in Hin.
    destruct Hin as [[Htag _] Hin]. exists e. split_and!; try done.
    + by apply String.eqb_eq.
    + destruct (dict_get "filename" (attrib e)); [|done].
      apply String.eqb_eq in He. by subst.
  - intros (e & Hin & Htag & Hget). exists e. split.
    + apply list_elem_of_In, list_elem_of_filter. split; [|done].
      rewrite Htag. unfold dict_mem. by rewrite Hget.
    + rewrite Hget. apply String.eqb_refl.
Qed.

Lemma count_filename_pos filename root :
  count_filename filename root ≠ 0
  ↔ ∃ e, e ∈ descendants root ∧ entry_named filename e.
Proof.
  unfold count_filename, findall_entry, entry_named.
  destruct (filter _ (filter _ _)) as [|e l] eqn:Hf; simpl.
  - split; [done|]. intros (e & Hin & Htag & Hget). exfalso.
    eapply (filter_nil_not_elem_of _ _ e Hf); [done|].
    apply list_elem_of_filter. split; [|done]. by apply String.eqb_eq.
  - split; [|done]. intros _.
    assert (Hin : e ∈ e :: l) by apply list_elem_of_here.
    rewrite <- Hf in Hin. apply list_elem_of_filter in Hin as [Hget Hin].
    apply list_elem_of_filter in Hin as [Htag Hin].
    exists e. split_and!; try done. by apply String.eqb_eq.
Qed.

Lemma count_filename_append filename (e root : Element) :
  leaf e → entry_named filename e →
  count_filename filename (Element_append e root)
    = S (count_filename filename root).
Proof.
  intros Hleaf [Htag Hget]. unfold count_filename, findall_entry.
  rewrite descendants_append, (iter_leaf e Hleaf), !filter_app, length_app.
  rewrite (filter_cons_True _ e []), filter_nil by by rewrite Htag.
  rewrite (filter_cons_True _ e []), filter_nil by done.
  simpl. lia.
Qed.

Lemma fold_set_get_other k md e :
  k ∉ dict_keys md →
  Element_get k (fold_left (λ e kv, Element_set kv.1 kv.2 e) md e)
    = Element_get k e.
Proof.
  revert e. induction md as [|[k' v'] md IH]; intros e Hk; [done|].
  unfold dict_keys in Hk. simpl in Hk. apply not_elem_of_cons in Hk as [Hne Hk].
  simpl. rewrite IH by done. unfold Element_get, Element_set. simpl.
  by apply dict_get_set_ne.
Qed.

(** Without a metadata key ["filename"], the new entry carries the file
    name it was added under. *)
Lemma new_entry_named filename text metadata :
  (∀ md, metadata = Some md → "filename" ∉ dict_keys md) →
  entry_named filename (new_entry filename text metadata).
Proof.
  intros Hmd. split; [apply new_entry_is_new|].
  unfold new_entry, Element_get. simpl.
  destruct metadata as [[|kv md]|]; simpl; try done.
  change (Element_get "filename"
            (fold_left (λ e kv0, Element_set kv0.1 kv0.2 e) (kv :: md)
               (Element_set "filename" filename (ET_Element "entry")))
          = Some filename).
  by rewrite fold_set_get_other by by apply Hmd.
Qed.

(** The intended behaviour, which holds as long as the first call's
    metadata has no key ["filename"]: the second call changes nothing,
    and a document that had at most one entry of that file name has
    exactly one afterwards. *)
Lemma add_entry_twice_without_filename_key
    s category filename text1 metadata1 text2 metadata2 (root : Element) :
  dict_get category (roots (xml_handler s)) = Some root →
  (∀ md, metadata1 = Some md → "filename" ∉ dict_keys md) →
  (count_filename filename root ≤ 1)%nat →
  let s1 := exec (add_entry category filename text1 metadata1) s in
  add_entry category filename text2 metadata2 s1 = (Ok tt, s1)
  ∧ ∃ root1, dict_get category (roots (xml_handler s1)) = Some root1
             ∧ count_filename filename root1 = 1.
Proof.
  intros Hroot Hmd Hcount s1. unfold s1, exec.
  rewrite (add_entry_run _ _ _ _ _ _ Hroot). simpl.
  destruct (any_filename filename (findall_entry_with_filename root)) eqn:Hany.
  - rewrite (add_entry_run _ _ _ _ _ _ Hroot), Hany. split; [done|].
    exists root. split; [done|].
    apply any_filename_iff, count_filename_pos in Hany. lia.
  - set (entry := new_entry filename text1 metadata1).
    assert (Hnamed : entry_named filename entry) by by apply new_entry_named.
    assert (Hleaf : leaf entry) by apply new_entry_is_new.
    set (s' := set_xml_handler _ s).
    assert (Hroot' : dict_get category (roots (xml_handler s'))
                     = Some (Element_append entry root)).
    { unfold s'. simpl. apply dict_get_set_eq. }
    rewrite (add_entry_run _ _ _ _ _ _ Hroot').
    assert (Hany' : any_filename filename
              (findall_entry_with_filename (Element_append entry root)) = true).
    { apply any_filename_iff. exists entry. split; [|done].
      rewrite descendants_append, (iter_leaf entry Hleaf).
      apply elem_of_app. right. apply list_elem_of_here. }
    rewrite Hany'. split; [done|].
    eexists. split; [exact Hroot'|].
    rewrite count_filename_append by done. f_equal.
    destruct (count_filename filename root) eqn:E; [done|].
    exfalso. assert (Hnz : count_filename filename root ≠ 0) by lia.
    apply count_filename_pos, any_filename_iff in Hnz. congruence.
Qed.

(** C1 on the failing input.  When the metadata of the calls has the key
    ["filename"], its value replaces the attribute under which the
    duplicate test looks the entry up: two calls for ["a.pdf"] leave no
    entry named ["a.pdf"], two entries named ["b.pdf"], and the second
    call has changed the document. *)
Theorem add_entry_twice_filename_in_metadata :
  let env := table_env [] [] [] [] [] in
  let s0 := fresh env example_config in
  let s1 :=
    exec (add_entry "external" "a.pdf" "first" (Some [("filename", "b.pdf")])) s0 in
  let s2 :=
    exec (add_entry "external" "a.pdf" "second" (Some [("filename", "b.pdf")])) s1 in
  ∃ root,
    dict_get "external" (roots (xml_handler s2)) = Some root
    ∧ count_filename "a.pdf" root = 0
    ∧ count_filename "b.pdf" root = 2
    ∧ length (entries root) = 2
    ∧ xml_handler s2 ≠ xml_handler s1.
Proof.
  eexists. split_and!; try (vm_compute; reflexivity).
  vm_compute. discriminate.
Qed.

(** ** The handler keeps its three keys through a whole run *)

Lemma run_has_categories env config d s0 :
  Pipeline_init env config d = Ok s0 →
  has_categories (xml_handler s0)
  ∧ has_categories (xml_handler (exec (process_directory env config) s0)).
Proof.
  intros Hinit.
  assert (Hbuilt : built_for config (xml_handler s0)).
  { unfold Pipeline_init in Hinit.
    destruct (FileTracker_init _ d); simplify_eq. simpl.
    apply XMLHandler_init_built_for. }
  split; [apply Hbuilt|].
  unfold process_directory, exec, bind at 1.
  pose proof (process_files_grows env config
                (walk_files env (root_folder config)) (mkCounts 0 0 0) s0) as Hg.
  destruct (process_files_ok env config
              (walk_files env (root_folder config)) (mkCounts 0 0 0) s0) as [c Hc].
  unfold exec in Hg. unfold eval in Hc.
  destruct (process_files _ _ _ _ s0) as [r s']. simpl in *. subst r.
  pose proof (store_grown_built_for _ _ _ Hbuilt Hg) as Hbuilt'.
  destruct (has_categories_shape _ (proj2 (proj2 Hbuilt'))) as (r1 & r2 & r3 & Hshape).
  unfold bind. by rewrite (save_all_run env config s' r1 r2 r3 Hbuilt' Hshape).
Qed.

(** * Further properties of the code *)

(** ** file_tracker.py: recording and forgetting *)

Lemma Qgtb_irrefl (m : Q) : Qgtb m m = false.
Proof.
  destruct (Qgtb m m) eqn:E; [|done].
  apply Qgtb_iff in E. by apply Qlt_irrefl in E.
Qed.

Lemma save_tracker_run env s :
  _save_tracker env s =
    if writable env (tracker_path s)
    then (Ok tt, set_disk (<[tracker_path s := FJson (tracked s)]> (disk s)) s)
    else (Raise (OSError (tracker_path s)), s).
Proof.
  unfold _save_tracker, tracker_path, tracked. py_unfold.
  by destruct (writable env _).
Qed.

Lemma update_file_timestamp_run env file_path s m :
  os_path_getmtime env file_path = Some m →
  update_file_timestamp env file_path s =
    let ft := mkFileTracker (tracker_path s) (<[file_path := m]> (tracked s)) in
    if writable env (tracker_path s)
    then (Ok tt, mkSys ft (xml_handler s)
                   (<[tracker_path s := FJson (<[file_path := m]> (tracked s))]> (disk s)))
    else (Raise (OSError (tracker_path s)), mkSys ft (xml_handler s) (disk s)).
Proof.
  intros Hm. unfold update_file_timestamp. rewrite Hm.
  unfold bind, modify. rewrite save_tracker_run.
  unfold tracker_path, tracked, set_file_tracker, set_disk. simpl.
  by destruct (writable env _).
Qed.

(** X1.  Recording an existing file when the tracker file can be
    written: the call succeeds, the mapping gets the current
    modification time under that path and is otherwise unchanged, the
    tracker file holds the whole mapping (a tracker constructed from the
    disk is the one in memory), the file is no longer due, and neither
    the documents nor any other file on disk is touched. *)
Theorem update_file_timestamp_persists env file_path s m :
  os_path_getmtime env file_path = Some m →
  writable env (tracker_path s) = true →
  let s' := exec (update_file_timestamp env file_path) s in
  eval (update_file_timestamp env file_path) s = Ok tt
  ∧ tracked s' = <[file_path := m]> (tracked s)
  ∧ FileTracker_init (tracker_path s) (disk s') = Ok (file_tracker s')
  ∧ eval (needs_update env file_path) s' = Ok false
  ∧ xml_handler s' = xml_handler s
  ∧ (∀ p, p ≠ tracker_path s → disk s' !! p = disk s !! p).
Proof.
  intros Hm Hw s'. unfold s', eval, exec.
  rewrite (update_file_timestamp_run env file_path s m Hm), Hw. simpl.
  split_and!; try done.
  - unfold FileTracker_init, _load_tracker. by rewrite lookup_insert_eq.
  - unfold needs_update. py_unfold. rewrite Hm. simpl.
    by rewrite lookup_insert_eq, Qgtb_irrefl.
  - intros p Hp. by rewrite lookup_insert_ne.
Qed.

Lemma update_file_timestamp_persists_witness :
  let s := fresh scenario_env example_config in
  let s' := exec (update_file_timestamp scenario_env "/data/external/report.pdf") s in
  tracked s' = <["/data/external/report.pdf" := 100%Q]> (tracked s)
  ∧ FileTracker_init "file_tracker.json" (disk s') = Ok (file_tracker s')
  ∧ eval (needs_update scenario_env "/data/external/report.pdf") s' = Ok false.
Proof.
  intros s.
  destruct (update_file_timestamp_persists scenario_env
              "/data/external/report.pdf" s 100%Q)
    as (_ & Ht & Hi & Hn & _); [reflexivity | reflexivity |].
  split_and!; [exact Ht | exact Hi | exact Hn].
Defined.

(** X2.  The two ways recording fails.  For a path that does not exist
    the call raises and nothing changes.  When the tracker file cannot be
    written the call raises after the mapping in memory has been
    updated, so memory is then ahead of the disk, which is unchanged. *)
Theorem update_file_timestamp_failures env file_path s :
  (os_path_getmtime env file_path = None →
     update_file_timestamp env file_path s = (Raise (OSError file_path), s))
  ∧ (∀ m, os_path_getmtime env file_path = Some m →
       writable env (tracker_path s) = false →
       let s' := exec (update_file_timestamp env file_path) s in
       eval (update_file_timestamp env file_path) s
         = Raise (OSError (tracker_path s))
       ∧ tracked s' = <[file_path := m]> (tracked s)
       ∧ disk s' = disk s
       ∧ xml_handler s' = xml_handler s).
Proof.
  split.
  - intros Hm. unfold update_file_timestamp. by rewrite Hm.
  - intros m Hm Hw s'. unfold s', eval, exec.
    by rewrite (update_file_timestamp_run env file_path s m Hm), Hw.
Qed.

Lemma remove_file_run env file_path s v :
  tracked s !! file_path = Some v →
  remove_file env file_path s =
    let ft := mkFileTracker (tracker_path s) (delete file_path (tracked s)) in
    if writable env (tracker_path s)
    then (Ok tt, mkSys ft (xml_handler s)
                   (<[tracker_path s := FJson (delete file_path (tracked s))]> (disk s)))
    else (Raise (OSError (tracker_path s)), mkSys ft (xml_handler s) (disk s)).
Proof.
  unfold tracked, tracker_path. intros Hv.
  unfold remove_file, bind at 1, get. rewrite Hv.
  unfold bind, modify. rewrite save_tracker_run.
  unfold tracker_path, tracked, set_file_tracker, set_disk. simpl.
  by destruct (writable env _).
Qed.

(** X3.  Forgetting a path.  A path that is not tracked: nothing happens
    and nothing is written.  A tracked path, with a writable tracker
    file: the path is removed, the other paths keep their times, the
    tracker file holds the new mapping, and the file, if it exists, is
    due again exactly when its modification time is positive. *)
Theorem remove_file_spec env file_path s :
  (tracked s !! file_path = None → remove_file env file_path s = (Ok tt, s))
  ∧ (is_Some (tracked s !! file_path) →
     writable env (tracker_path s) = true →
     let s' := exec (remove_file env file_path) s in
     eval (remove_file env file_path) s = Ok tt
     ∧ tracked s' = delete file_path (tracked s)
     ∧ FileTracker_init (tracker_path s) (disk s') = Ok (file_tracker s')
     ∧ xml_handler s' = xml_handler s
     ∧ (∀ m, os_path_getmtime env file_path = Some m →
          eval (needs_update env file_path) s' = Ok (Qgtb m 0))).
Proof.
  split.
  - unfold remove_file, tracked, bind, get. by intros ->.
  - intros [v Hv] Hw s'. unfold s', eval, exec.
    rewrite (remove_file_run env file_path s v Hv), Hw. simpl.
    split_and!; try done.
    + unfold FileTracker_init, _load_tracker. by rewrite lookup_insert_eq.
    + intros m Hm. unfold needs_update. py_unfold. rewrite Hm. simpl.
      by rewrite lookup_delete_eq.
Qed.

(** ** xml_handler.py: loading, looking up and appending *)

(** X5.  [_entry_exists] on a category of the handler answers whether
    some element below the root, at any depth, has the tag [entry] and
    the given value of its [filename] attribute; on a key that is not in
    [self.roots] it raises [KeyError]; it changes nothing. *)
Theorem entry_exists_spec category filename s :
  (dict_get category (roots (xml_handler s)) = None →
     _entry_exists category filename s = (Raise (LibraryError "KeyError"), s))
  ∧ (∀ root, dict_get category (roots (xml_handler s)) = Some root →
       ∃ b, _entry_exists category filename s = (Ok b, s)
            ∧ (b = true ↔ ∃ e, e ∈ descendants root ∧ entry_named filename e)).
Proof.
  unfold _entry_exists. py_unfold. split.
  - by intros ->.
  - intros root ->. eexists. split; [done|]. apply any_filename_iff.
Qed.

Lemma dict_set_fresh {V} k (v : V) d :
  k ∉ dict_keys d → dict_set k v d = d ++ [(k, v)].
Proof.
  unfold dict_keys. induction d as [|[k' v'] d IH]; simpl; [done|].
  intros [Hne Hk]%not_elem_of_cons.
  destruct (String.eqb_spec k' k); [congruence|]. by rewrite IH.
Qed.

Lemma fold_set_fresh md e :
  NoDup (dict_keys md) →
  (∀ k, k ∈ dict_keys md → k ∉ dict_keys (attrib e)) →
  attrib (fold_left (λ e kv, Element_set kv.1 kv.2 e) md e) = attrib e ++ md.
Proof.
  revert e. induction md as [|[k v] md IH]; intros e Hnd Hfresh; simpl.
  - by rewrite app_nil_r.
  - unfold dict_keys in Hnd. simpl in Hnd. apply NoDup_cons in Hnd as [Hk Hnd].
    rewrite IH; [| done |].
    + simpl. rewrite dict_set_fresh.
      * by rewrite <- app_assoc.
      * apply Hfresh. unfold dict_keys. simpl. apply list_elem_of_here.
    + intros k' Hk'. simpl. rewrite dict_set_fresh.
      * unfold dict_keys. rewrite map_app. simpl.
        intros [Hin|Hin]%elem_of_app.
        -- revert Hin. apply Hfresh. unfold dict_keys. simpl.
           by apply list_elem_of_further.
        -- apply list_elem_of_singleton in Hin. subst k'. by apply Hk.
      * apply Hfresh. unfold dict_keys. simpl. apply list_elem_of_here.
Qed.

Lemma fold_set_tail md e :
  tail (fold_left (λ e kv, Element_set kv.1 kv.2 e) md e) = tail e.
Proof. revert e. induction md as [|x l IH]; intros e; [done|]. simpl. by rewrite IH. Qed.

Lemma new_entry_attributes filename body md :
  NoDup (dict_keys md) →
  "filename" ∉ dict_keys md →
  new_entry filename body (Some md)
    = mkElement "entry" (("filename", filename) :: md) (Some body) None [].
Proof.
  intros Hnd Hfn. unfold new_entry.
  set (e0 := Element_set "filename" filename (ET_Element "entry")).
  assert (Hshape : ∀ F, tag F = "entry" → attrib F = ("filename", filename) :: md →
            tail F = None → children F = [] →
            mkElement (tag F) (attrib F) (Some body) (tail F) (children F)
            = mkElement "entry" (("filename", filename) :: md) (Some body) None []).
  { by intros F -> -> -> ->. }
  destruct md as [|kv md']; [done|].
  cbv beta iota zeta. apply Hshape.
  - by destruct (fold_set_shape (kv :: md') e0) as [-> _].
  - rewrite fold_set_fresh; [done | done |].
    intros k Hk. simpl. unfold dict_keys. simpl.
    rewrite not_elem_of_cons. split; [congruence | apply not_elem_of_nil].
  - by rewrite fold_set_tail.
  - by destruct (fold_set_shape (kv :: md') e0) as [_ ->].
Qed.

(** X6.  Adding a file name the category does not have yet, with
    metadata whose keys are distinct and do not include ["filename"]:
    the call succeeds and appends, after all existing children of the
    category's root, one [entry] element without children whose
    attributes are [filename] followed by the metadata in their order
    and whose body is the text; the other categories, the tracker and
    the disk are untouched. *)
Theorem add_entry_appends s category filename body md (root : Element) :
  dict_get category (roots (xml_handler s)) = Some root →
  (∀ e, e ∈ descendants root → ¬ entry_named filename e) →
  NoDup (dict_keys md) →
  "filename" ∉ dict_keys md →
  let s' := exec (add_entry category filename body (Some md)) s in
  eval (add_entry category filename body (Some md)) s = Ok tt
  ∧ dict_get category (roots (xml_handler s'))
    = Some (mkElement (tag root) (attrib root) (text root) (tail root)
              (children root ++
                 [mkElement "entry" (("filename", filename) :: md)
                            (Some body) None []]))
  ∧ (∀ c, c ≠ category →
       dict_get c (roots (xml_handler s')) = dict_get c (roots (xml_handler s)))
  ∧ file_tracker s' = file_tracker s
  ∧ disk s' = disk s.
Proof.
  intros Hroot Hnew Hnd Hfn s'. unfold s', eval, exec.
  rewrite (add_entry_run _ _ _ _ _ _ Hroot).
  destruct (any_filename filename (findall_entry_with_filename root)) eqn:Hany.
  { apply any_filename_iff in Hany as (e & Hin & He). by destruct (Hnew e Hin). }
  simpl. split_and!; try done.
  - by rewrite dict_get_set_eq, new_entry_attributes.
  - intros c Hc. by apply dict_get_set_ne.
Qed.

Lemma add_entry_appends_witness :
  let s := fresh scenario_env example_config in
  let s' :=
    exec (add_entry "client" "a.pdf" "text" (Some [("processed_date", "today")])) s in
  dict_get "client" (roots (xml_handler s'))
    = Some (mkElement "Root" [] None None
              [mkElement "entry" [("filename", "a.pdf"); ("processed_date", "today")]
                 (Some "text") None []]).
Proof.
  intros s.
  destruct (add_entry_appends s "client" "a.pdf" "text"
              [("processed_date", "today")] (ET_Element "Root"))
    as (_ & H & _).
  - vm_compute. reflexivity.
  - intros e He. vm_compute in He. by apply elem_of_nil in He.
  - unfold dict_keys. simpl. repeat constructor. apply not_elem_of_nil.
  - unfold dict_keys. simpl. rewrite not_elem_of_cons.
    split; [discriminate | apply not_elem_of_nil].
  - exact H.
Defined.

(** ** xml_handler.py: pretty-printing *)

Lemma Element_nested_ind (P : Element → Prop) :
  (∀ tg ats tx tl cs, Forall P cs → P (mkElement tg ats tx tl cs)) →
  ∀ e, P e.
Proof.
  intros step. fix IH 1. intros [tg ats tx tl cs]. apply step.
  induction cs as [|c cs IHcs]; constructor; [apply IH | exact IHcs].
Qed.

Lemma blank_whitespace s : PyStr.whitespace_only s = true → blank (Some s) = true.
Proof.
  intros H. apply strip_falsy_iff in H. unfold blank. rewrite H.
  by rewrite orb_true_r.
Qed.

Lemma whitespace_only_repeat n t :
  PyStr.whitespace_only (PyStr.repeat "  " n +:+ t) = PyStr.whitespace_only t.
Proof.
  induction n as [|n IH]; [done|].
  change (PyStr.repeat "  " (S n) +:+ t)
    with (String " " (String " " (PyStr.repeat "  " n +:+ t))).
  by rewrite !whitespace_only_space1.
Qed.

Lemma append_assoc (a b c : string) : (a +:+ b) +:+ c = a +:+ (b +:+ c).
Proof. induction a as [|x a IH]; [done|]. by rewrite !append_cons, IH. Qed.

Lemma append_nil_r (a : string) : a +:+ "" = a.
Proof. induction a as [|x a IH]; [done|]. by rewrite append_cons, IH. Qed.

Lemma blank_indent n :
  blank (Some (PyStr.nl +:+ PyStr.repeat "  " n)) = true
  ∧ blank (Some ((PyStr.nl +:+ PyStr.repeat "  " n) +:+ "  ")) = true.
Proof.
  split; apply blank_whitespace.
  - rewrite <- (append_nil_r (PyStr.repeat "  " n)).
    unfold PyStr.nl. rewrite append_cons, whitespace_only_space1 by done.
    change ("" +:+ (PyStr.repeat "  " n +:+ "")) with (PyStr.repeat "  " n +:+ "").
    by rewrite whitespace_only_repeat.
  - rewrite append_assoc. unfold PyStr.nl.
    rewrite append_cons, whitespace_only_space1 by done.
    change ("" +:+ (PyStr.repeat "  " n +:+ "  ")) with (PyStr.repeat "  " n +:+ "  ").
    by rewrite whitespace_only_repeat.
Qed.

Lemma indent_leaf n tg ats tx tl :
  _indent n (mkElement tg ats tx tl []) =
    if negb (Nat.eqb n 0) && blank tl
    then mkElement tg ats tx (Some (PyStr.nl +:+ PyStr.repeat "  " n)) []
    else mkElement tg ats tx tl [].
Proof. reflexivity. Qed.

Lemma indent_node n tg ats tx tl c cs :
  _indent n (mkElement tg ats tx tl (c :: cs)) =
    let i := PyStr.nl +:+ PyStr.repeat "  " n in
    let tl1 := if blank tl then Some i else tl in
    mkElement tg ats (if blank tx then Some (i +:+ "  ") else tx)
      (if blank tl1 then Some i else tl1)
      (map (_indent (S n)) (c :: cs)).
Proof. reflexivity. Qed.

(** X7.  Pretty-printing is idempotent: indenting an already indented
    tree at the same level changes nothing, so saving twice writes the
    same tree. *)
Theorem indent_idempotent e : ∀ n, _indent n (_indent n e) = _indent n e.
Proof.
  induction e as [tg ats tx tl cs IH] using Element_nested_ind. intros n.
  destruct (blank_indent n) as [Hi Hi2].
  destruct cs as [|c cs].
  - rewrite indent_leaf.
    destruct (negb (Nat.eqb n 0)) eqn:Hn; destruct (blank tl) eqn:Htl;
      cbn [andb]; rewrite indent_leaf, Hn; cbn [andb];
      rewrite ?Hi, ?Htl; reflexivity.
  - assert (Hcs : map (_indent (S n)) (map (_indent (S n)) (c :: cs))
                  = map (_indent (S n)) (c :: cs)).
    { rewrite map_map. apply map_ext_Forall.
      eapply Forall_impl; [exact IH|]. intros x Hx. apply Hx. }
    rewrite indent_node. cbv zeta.
    change (map (_indent (S n)) (c :: cs))
      with (_indent (S n) c :: map (_indent (S n)) cs) at 1.
    rewrite indent_node. cbv zeta.
    change (_indent (S n) c :: map (_indent (S n)) cs)
      with (map (_indent (S n)) (c :: cs)).
    rewrite Hcs.
    destruct (blank tx) eqn:Htx; destruct (blank tl) eqn:Htl;
      rewrite ?Hi, ?Hi2, ?Htx, ?Htl, ?Hi; reflexivity.
Qed.

Lemma iter_indent_shape e :
  ∀ n, map shape (Element_iter (_indent n e)) = map shape (Element_iter e).
Proof.
  induction e as [tg ats tx tl cs IH] using Element_nested_ind. intros n.
  destruct cs as [|c cs].
  - rewrite indent_leaf. by destruct (negb (Nat.eqb n 0) && blank tl).
  - rewrite indent_node. cbv zeta.
    cbn [Element_iter children map]. unfold shape at 1 3. cbn [tag attrib].
    f_equal.
    change (_indent (S n) c :: map (_indent (S n)) cs)
      with (map (_indent (S n)) (c :: cs)).
    induction IH as [|x l Hx _ IHl]; [done|].
    cbn [map flat_map]. rewrite !map_app, Hx. by f_equal.
Qed.

Lemma descendants_indent_shape n root :
  map shape (descendants (_indent n root)) = map shape (descendants root).
Proof.
  pose proof (iter_indent_shape root n) as H.
  assert (Hiter : ∀ e, Element_iter e = e :: descendants e) by by intros [].
  rewrite !Hiter in H. cbn [map] in H. by injection H.
Qed.

Lemma any_filename_shape filename (l1 l2 : list Element) :
  map shape l1 = map shape l2 →
  any_filename filename
    (filter (fun e => String.eqb (tag e) "entry" = true
                      ∧ dict_mem "filename" (attrib e) = true) l1)
  = any_filename filename
      (filter (fun e => String.eqb (tag e) "entry" = true
                        ∧ dict_mem "filename" (attrib e) = true) l2).
Proof.
  revert l2. induction l1 as [|x l1 IH]; intros [|y l2] H; try done.
  cbn [map] in H. injection H as Htag Hattr Hrest.
  rewrite !filter_cons, Htag, Hattr.
  destruct (decide _); [|by apply IH].
  unfold any_filename in *. cbn [existsb]. unfold Element_get.
  rewrite Hattr. f_equal. by apply IH.
Qed.

(** X8.  Pretty-printing changes no tag and no attribute, so saving does
    not change what [_entry_exists] answers: a file name found before
    [save_all] is found afterwards, and one not found is still not
    found. *)
Theorem save_all_keeps_entry_lookup env config s category filename :
  built_for config (xml_handler s) →
  eval (_entry_exists category filename) (exec (save_all env) s)
    = eval (_entry_exists category filename) s.
Proof.
  intros Hbuilt.
  destruct (has_categories_shape _ (proj2 (proj2 Hbuilt))) as (r1 & r2 & r3 & Hshape).
  unfold exec at 1. rewrite (save_all_run env config s r1 r2 r3 Hbuilt Hshape).
  unfold _entry_exists. py_unfold. cbn [snd xml_handler roots]. rewrite Hshape.
  cbn [dict_get].
  destruct (String.eqb "external" category);
    [|destruct (String.eqb "internal" category);
      [|destruct (String.eqb "client" category); [|done]]];
    cbn [fst]; f_equal; unfold findall_entry_with_filename;
    apply any_filename_shape, descendants_indent_shape.
Qed.

Lemma save_all_keeps_entry_lookup_witness :
  let s :=
    exec (add_entry "client" "a.pdf" "text" None) (fresh scenario_env example_config) in
  eval (_entry_exists "client" "a.pdf") (exec (save_all scenario_env) s) = Ok true
  ∧ eval (_entry_exists "client" "b.pdf") (exec (save_all scenario_env) s) = Ok false.
Proof.
  intros s.
  assert (Hb : built_for example_config (xml_handler s)).
  { unfold built_for, has_categories. split_and!; vm_compute; reflexivity. }
  rewrite !(save_all_keeps_entry_lookup scenario_env example_config s _ _ Hb).
  split; vm_compute; reflexivity.
Defined.

(** ** xml_handler.py: saving *)




Lemma write_if_thrice_twice env p1 p2 p3 v1 v2 v3 (d : gmap string File) :
  let w := fun d => write_if env p3 v3 (write_if env p2 v2 (write_if env p1 v1 d)) in
  w (w d) = w d.
Proof.
  intros w. unfold w, write_if. apply map_eq. intros k.
  destruct (writable env p1); destruct (writable env p2);
    destruct (writable env p3);
    rewrite ?lookup_insert; repeat case_decide; try done;
    rewrite ?lookup_insert; repeat case_decide; done.
Qed.

(** X10.  Saving twice is the same as saving once: the second
    [save_all] leaves the documents in memory and every file on disk as
    the first one left them. *)
Theorem save_all_idempotent env config s :
  built_for config (xml_handler s) →
  exec (save_all env) (exec (save_all env) s) = exec (save_all env) s.
Proof.
  intros Hbuilt.
  destruct (has_categories_shape _ (proj2 (proj2 Hbuilt))) as (r1 & r2 & r3 & Hshape).
  unfold exec at 2 3. rewrite (save_all_run env config s r1 r2 r3 Hbuilt Hshape).
  cbn [snd]. unfold exec.
  rewrite (save_all_run env config _ (_indent 0 r1) (_indent 0 r2) (_indent 0 r3)).
  - cbn [snd file_tracker xml_handler output_dir category_files disk].
    rewrite !indent_idempotent. f_equal.
    apply (write_if_thrice_twice env).
  - destruct Hbuilt as (Ho & Hc & _). by split_and!.
  - done.
Qed.

Lemma save_all_idempotent_witness :
  let s :=
    exec (add_entry "client" "a.pdf" "text" None) (fresh scenario_env example_config) in
  exec (save_all scenario_env) (exec (save_all scenario_env) s)
    = exec (save_all scenario_env) s.
Proof.
  intros s. apply (save_all_idempotent scenario_env example_config s).
  unfold built_for, has_categories. split_and!; vm_compute; reflexivity.
Defined.

(** ** main.py: one file *)

Lemma strip_truthy_iff s :
  PyStr.truthy (PyStr.strip s) = true ↔ PyStr.whitespace_only s = false.
Proof.
  pose proof (strip_falsy_iff s) as H.
  destruct (PyStr.truthy (PyStr.strip s)), (PyStr.whitespace_only s);
    destruct H as [H1 H2]; split; try done; intros _;
    first [by specialize (H2 eq_refl) | by specialize (H1 eq_refl)].
Qed.

(** The part of [_process_file] under [try], run on a text that is not
    blank. *)
Lemma process_file_body_run env category file_path text s :
  extract_text env file_path = Ok text →
  PyStr.whitespace_only text = false →
  try_except
    (text <~ lift (extract_text env file_path) ;;
     if negb (PyStr.truthy (PyStr.strip text)) then ret error
     else
       add_entry category (os_path_basename env file_path) text
         (Some [("processed_date", datetime_now env file_path)]) ;;;
       update_file_timestamp env file_path ;;;
       ret processed)
    (fun _ => ret error) s
  = let '(r1, s1) :=
      add_entry category (os_path_basename env file_path) text
        (Some [("processed_date", datetime_now env file_path)]) s in
    match r1 with
    | Raise _ => (Ok error, s1)
    | Ok _ =>
        let '(r2, s2) := update_file_timestamp env file_path s1 in
        match r2 with
        | Raise _ => (Ok error, s2)
        | Ok _ => (Ok processed, s2)
        end
    end.
Proof.
  intros Htext Hws. apply strip_truthy_iff in Hws.
  py_unfold. rewrite Htext. cbn [fst snd]. rewrite Hws. cbn [negb].
  destruct (add_entry _ _ _ _ s) as [[[]|e1] s1]; [|done].
  by destruct (update_file_timestamp env file_path s1) as [[[]|e2] s2].
Qed.

(** [_process_file] once the gates are known to be passed. *)
Lemma process_file_gates env config file_path subdir s category :
  reaches_extraction env config file_path subdir s category →
  _process_file env config file_path subdir s =
    try_except
      (text <~ lift (extract_text env file_path) ;;
       if negb (PyStr.truthy (PyStr.strip text)) then ret error
       else
         add_entry category (os_path_basename env file_path) text
           (Some [("processed_date", datetime_now env file_path)]) ;;;
         update_file_timestamp env file_path ;;;
         ret processed)
      (fun _ => ret error) s.
Proof.
  intros (Hi & Hd & Hdue & Hcat). unfold _process_file.
  rewrite (bool_decide_eq_false_2 _ Hi), (bool_decide_eq_true_2 _ Hd).
  cbn [negb]. unfold bind at 1. rewrite needs_update_run, Hdue.
  cbn [negb]. by rewrite Hcat.
Qed.

Lemma needs_update_true_mtime env file_path s :
  eval (needs_update env file_path) s = Ok true →
  ∃ m, os_path_getmtime env file_path = Some m.
Proof.
  unfold needs_update. py_unfold.
  destruct (os_path_getmtime env file_path); [eauto | done].
Qed.

(** X11.  The successful path of [_process_file].  A file that passes
    the gates, yields a text that is not blank and belongs to a category
    the handler has, with a writable tracker file: the outcome is
    "processed", the document of the category afterwards has an entry
    named after the base name of the file, the tracker maps the path to
    the file's modification time both in memory and on disk, and the
    other categories are as before. *)
Theorem process_file_success env config file_path subdir s category text root :
  reaches_extraction env config file_path subdir s category →
  extract_text env file_path = Ok text →
  PyStr.whitespace_only text = false →
  dict_get category (roots (xml_handler s)) = Some root →
  writable env (tracker_path s) = true →
  let s' := exec (_process_file env config file_path subdir) s in
  eval (_process_file env config file_path subdir) s = Ok processed
  ∧ (∃ root' e, dict_get category (roots (xml_handler s')) = Some root'
                ∧ e ∈ descendants root'
                ∧ entry_named (os_path_basename env file_path) e)
  ∧ is_Some (tracked s' !! file_path)
  ∧ tracked s' !! file_path = os_path_getmtime env file_path
  ∧ disk s' !! tracker_path s = Some (FJson (tracked s'))
  ∧ (∀ c, c ≠ category →
       dict_get c (roots (xml_handler s')) = dict_get c (roots (xml_handler s))).
Proof.
  intros Hreach Htext Hws Hroot Hw s'.
  destruct (needs_update_true_mtime env file_path s) as [m Hm];
    [apply Hreach|].
  unfold s', eval, exec.
  rewrite (process_file_gates _ _ _ _ _ _ Hreach).
  rewrite (process_file_body_run _ _ _ _ _ Htext Hws).
  rewrite (add_entry_run _ _ _ _ _ _ Hroot).
  set (name := os_path_basename env file_path).
  set (entry := new_entry name text _).
  set (s1 := if any_filename name (findall_entry_with_filename root) then s else _).
  assert (Hft : file_tracker s1 = file_tracker s).
  { unfold s1. by destruct (any_filename _ _). }
  assert (Hdisk : disk s1 = disk s).
  { unfold s1. by destruct (any_filename _ _). }
  rewrite (update_file_timestamp_run env file_path s1 m Hm).
  unfold tracker_path, tracked in *. rewrite Hft, Hw. cbn.
  rewrite Hm, lookup_insert_eq. split_and!; try done.
  - unfold s1. destruct (any_filename _ _) eqn:Hany.
    + apply any_filename_iff in Hany as (e & Hin & He). eauto.
    + simpl. rewrite dict_get_set_eq. exists (Element_append entry root), entry.
      split_and!; [done | |].
      * rewrite descendants_append, (iter_leaf entry); [|apply new_entry_is_new].
        apply elem_of_app. right. apply list_elem_of_here.
      * apply new_entry_named. intros md [= <-]. unfold dict_keys. simpl.
        rewrite not_elem_of_cons. split; [discriminate | apply not_elem_of_nil].
  - apply lookup_insert_eq.
  - intros c Hc. unfold s1. destruct (any_filename _ _); [done|].
    simpl. by apply dict_get_set_ne.
Qed.

Lemma process_file_success_witness :
  let s := fresh scenario_env example_config in
  let s' :=
    exec (_process_file scenario_env example_config
            "/data/external/report.pdf" "/data/external") s in
  eval (_process_file scenario_env example_config
          "/data/external/report.pdf" "/data/external") s = Ok processed
  ∧ tracked s' !! "/data/external/report.pdf" = Some 100%Q
  ∧ disk s' !! "file_tracker.json" = Some (FJson (tracked s')).
Proof.
  intros s.
  destruct (process_file_success scenario_env example_config
              "/data/external/report.pdf" "/data/external" s "external"
              ("Q1" +:+ PyStr.nl +:+ "Q2") (ET_Element "Root"))
    as (Hout & _ & _ & Ht & Hd & _).
  - unfold reaches_extraction. split_and!.
    + apply (bool_decide_unpack _). vm_compute. exact I.
    + apply (bool_decide_unpack _). vm_compute. exact I.
    + vm_compute. reflexivity.
    + vm_compute. reflexivity.
  - vm_compute. reflexivity.
  - reflexivity.
  - vm_compute. reflexivity.
  - reflexivity.
  - split_and!; [exact Hout | exact Ht | exact Hd].
Defined.

(** X12.  A second file with the same base name in the same category
    (another sub-folder, say): the outcome is still "processed" and the
    tracker records the file, but the documents are exactly as they
    were; no entry is added for it. *)
Theorem process_file_duplicate_basename
    env config file_path subdir s category text (root e : Element) :
  reaches_extraction env config file_path subdir s category →
  extract_text env file_path = Ok text →
  PyStr.whitespace_only text = false →
  dict_get category (roots (xml_handler s)) = Some root →
  e ∈ descendants root →
  entry_named (os_path_basename env file_path) e →
  writable env (tracker_path s) = true →
  let s' := exec (_process_file env config file_path subdir) s in
  eval (_process_file env config file_path subdir) s = Ok processed
  ∧ xml_handler s' = xml_handler s
  ∧ tracked s' !! file_path = os_path_getmtime env file_path
  ∧ is_Some (tracked s' !! file_path).
Proof.
  intros Hreach Htext Hws Hroot Hin He Hw s'.
  destruct (needs_update_true_mtime env file_path s) as [m Hm];
    [apply Hreach|].
  unfold s', eval, exec.
  rewrite (process_file_gates _ _ _ _ _ _ Hreach).
  rewrite (process_file_body_run _ _ _ _ _ Htext Hws).
  rewrite (add_entry_run _ _ _ _ _ _ Hroot).
  assert (Hany : any_filename (os_path_basename env file_path)
                   (findall_entry_with_filename root) = true).
  { apply any_filename_iff. eauto. }
  rewrite Hany.
  rewrite (update_file_timestamp_run env file_path s m Hm), Hw. cbn.
  unfold tracked. cbn. by rewrite Hm, lookup_insert_eq.
Qed.

Lemma process_file_duplicate_basename_witness :
  let s0 := fresh scenario_env example_config in
  let s := exec (add_entry "external" "report.pdf" "older text" None) s0 in
  let s' :=
    exec (_process_file scenario_env example_config
            "/data/external/report.pdf" "/data/external") s in
  eval (_process_file scenario_env example_config
          "/data/external/report.pdf" "/data/external") s = Ok processed
  ∧ xml_handler s' = xml_handler s.
Proof.
  intros s0 s.
  destruct (process_file_duplicate_basename scenario_env example_config
              "/data/external/report.pdf" "/data/external" s "external"
              ("Q1" +:+ PyStr.nl +:+ "Q2")
              (mkElement "Root" [] None None
                 [mkElement "entry" [("filename", "report.pdf")]
                    (Some "older text") None []])
              (mkElement "entry" [("filename", "report.pdf")]
                 (Some "older text") None []))
    as (Hout & Hx & _).
  - unfold reaches_extraction. split_and!.
    + apply (bool_decide_unpack _). vm_compute. exact I.
    + apply (bool_decide_unpack _). vm_compute. exact I.
    + vm_compute. reflexivity.
    + vm_compute. reflexivity.
  - vm_compute. reflexivity.
  - reflexivity.
  - vm_compute. reflexivity.
  - vm_compute. apply list_elem_of_here.
  - split; vm_compute; reflexivity.
  - reflexivity.
  - split; [exact Hout | exact Hx].
Defined.

(** X13.  An extension that the configuration lists as a document but
    the processor does not support ([.txt], say): the [ValueError] of
    [extract_text] is caught, the outcome is "error", not "skipped", and
    nothing is changed, so the file is an error again on every run. *)
Theorem process_file_unsupported_document_type
    env config file_path subdir s category :
  reaches_extraction env config file_path subdir s category →
  str_lower env (snd (os_path_splitext env file_path)) ∉ supported_extensions →
  _process_file env config file_path subdir s = (Ok error, s).
Proof.
  intros Hreach Hns. rewrite (process_file_gates _ _ _ _ _ _ Hreach).
  py_unfold. unfold extract_text.
  by rewrite (bool_decide_eq_false_2 _ Hns).
Qed.

Lemma process_file_unsupported_document_type_witness :
  let env := table_env [("/data/client/notes.txt", 5%Q)] [] [] [] [] in
  let config :=
    mkConfig "/data" "/out" {[ ".pdf"; ".txt" ]} ∅
             "external" "internal" "client"
             "external.xml" "internal.xml" "client.xml" in
  let s := fresh env config in
  _process_file env config "/data/client/notes.txt" "/data/client" s
    = (Ok error, s).
Proof.
  intros env config s.
  apply (process_file_unsupported_document_type env config
           "/data/client/notes.txt" "/data/client" s "client").
  - unfold reaches_extraction. split_and!.
    + apply (bool_decide_unpack _). vm_compute. exact I.
    + apply (bool_decide_unpack _). vm_compute. exact I.
    + vm_compute. reflexivity.
    + vm_compute. reflexivity.
  - apply (bool_decide_unpack _). vm_compute. exact I.
Defined.

(** What any call of [_process_file] can do, read off its branches. *)
Lemma process_file_inv env config file_path subdir s :
  let extension := str_lower env (snd (os_path_splitext env file_path)) in
  ∃ o s', _process_file env config file_path subdir s = (Ok o, s')
       ∧ (o = skipped → s' = s)
       ∧ tracker_path s' = tracker_path s
       ∧ (tracked s' = tracked s
          ∨ ∃ m, os_path_getmtime env file_path = Some m
                 ∧ tracked s' = <[file_path := m]> (tracked s))
       ∧ (o = processed →
          (extension ∉ ignore config) ∧ (extension ∈ documents config)
          ∧ ∃ m, os_path_getmtime env file_path = Some m
                 ∧ tracked s' !! file_path = Some m).
Proof.
  intros extension. unfold _process_file. fold extension.
  assert (Hsame : ∀ o, o ≠ processed →
    ∃ o' s', (Ok o, s) = (Ok o', s')
       ∧ (o' = skipped → s' = s)
       ∧ tracker_path s' = tracker_path s
       ∧ (tracked s' = tracked s
          ∨ ∃ m, os_path_getmtime env file_path = Some m
                 ∧ tracked s' = <[file_path := m]> (tracked s))
       ∧ (o' = processed →
          (extension ∉ ignore config) ∧ (extension ∈ documents config)
          ∧ ∃ m, os_path_getmtime env file_path = Some m
                 ∧ tracked s' !! file_path = Some m)).
  { intros o Ho. exists o, s. split_and!; auto. by intros ->. }
  destruct (bool_decide (extension ∈ ignore config)) eqn:Hi.
  { by apply Hsame. }
  destruct (bool_decide (extension ∈ documents config)) eqn:Hd; cbn [negb];
    [|by apply Hsame].
  apply bool_decide_eq_false in Hi. apply bool_decide_eq_true in Hd.
  unfold bind at 1. rewrite needs_update_run.
  destruct (eval (needs_update env file_path) s) as [[|]|e] eqn:Hdue; cbn [negb];
    [| by apply Hsame
     | exfalso; revert Hdue; unfold needs_update; py_unfold;
       by destruct (os_path_getmtime env file_path)].
  destruct (_determine_category env config subdir) as [category|];
    [|by apply Hsame].
  unfold try_except, bind at 1, lift.
  destruct (extract_text env file_path) as [text|e]; cbn [fst snd];
    [|by apply Hsame].
  destruct (negb (PyStr.truthy (PyStr.strip text))); cbn [fst snd];
    [by apply Hsame|].
  unfold bind.
  destruct (add_entry_frame s category (os_path_basename env file_path) text
              (Some [("processed_date", datetime_now env file_path)]))
    as [Hft Hdisk].
  unfold exec in Hft, Hdisk.
  destruct (add_entry _ _ _ _ s) as [[[]|e] s1]; cbn [fst snd] in *.
  2:{ exists error, s1. unfold tracker_path, tracked. rewrite Hft.
      split_and!; auto; done. }
  destruct (os_path_getmtime env file_path) as [m|] eqn:Hm.
  - rewrite (update_file_timestamp_run env file_path s1 m Hm).
    unfold tracker_path, tracked. rewrite Hft.
    destruct (writable env _); cbn.
    + eexists processed, _. split; [reflexivity|]. cbn. split_and!; try done.
      * right. eauto.
      * intros _. split_and!; try done. exists m.
        split; [done | apply lookup_insert_eq].
    + eexists error, _. split; [reflexivity|]. cbn. split_and!; try done.
      right. eauto.
  - unfold update_file_timestamp. rewrite Hm. cbn.
    exists error, s1. unfold tracker_path, tracked. rewrite Hft.
    split_and!; auto; done.
Qed.

(** X15.  A file that was processed is not processed again: right after
    a call with outcome "processed", the same call is "skipped" and
    changes nothing. *)
Theorem process_file_twice env config file_path subdir s :
  eval (_process_file env config file_path subdir) s = Ok processed →
  let s' := exec (_process_file env config file_path subdir) s in
  _process_file env config file_path subdir s' = (Ok skipped, s').
Proof.
  intros Hp s'.
  destruct (process_file_inv env config file_path subdir s)
    as (o & s1 & Hrun & _ & _ & _ & Hproc).
  unfold s', eval, exec in *. rewrite Hrun in *. cbn [fst snd] in *.
  injection Hp as ->.
  destruct (Hproc eq_refl) as (Hi & Hd & m & Hm & Ht).
  unfold _process_file.
  rewrite (bool_decide_eq_false_2 _ Hi), (bool_decide_eq_true_2 _ Hd).
  cbn [negb]. unfold bind at 1. rewrite needs_update_run.
  assert (Hdue : eval (needs_update env file_path) s1 = Ok false).
  { unfold needs_update. py_unfold. rewrite Hm. cbn.
    unfold tracked in Ht. by rewrite Ht, Qgtb_irrefl. }
  by rewrite Hdue.
Qed.

Lemma process_file_twice_witness :
  let s := fresh scenario_env example_config in
  let s' :=
    exec (_process_file scenario_env example_config
            "/data/external/report.pdf" "/data/external") s in
  _process_file scenario_env example_config
    "/data/external/report.pdf" "/data/external" s' = (Ok skipped, s').
Proof.
  intros s.
  apply (process_file_twice scenario_env example_config
           "/data/external/report.pdf" "/data/external" s).
  vm_compute. reflexivity.
Defined.

(** ** main.py: a whole run *)

Lemma count_total result c : total (count result c) = S (total c).
Proof.
  unfold total, count. destruct result as [[]|]; simpl; lia.
Qed.

Lemma process_files_total env config files c s :
  ∃ c', eval (process_files env config files c) s = Ok c'
        ∧ total c' = total c + length files.
Proof.
  revert c s. induction files as [|[file_path subdir] files IH]; intros c s.
  - exists c. split; [done|]. simpl. lia.
  - unfold eval. simpl.
    destruct (_process_file env config file_path subdir s) as [result s1].
    destruct (IH (count result c) s1) as (c' & Hc' & Ht).
    exists c'. split; [exact Hc'|]. rewrite Ht, count_total. lia.
Qed.

Lemma process_directory_run env config s :
  built_for config (xml_handler s) →
  ∃ c s1 r1 r2 r3,
    process_files env config (walk_files env (root_folder config))
      (mkCounts 0 0 0) s = (Ok c, s1)
    ∧ built_for config (xml_handler s1)
    ∧ roots (xml_handler s1) = [("external", r1); ("internal", r2); ("client", r3)]
    ∧ process_directory env config s = (Ok c, exec (save_all env) s1)
    ∧ total c = length (walk_files env (root_folder config)).
Proof.
  intros Hbuilt.
  set (files := walk_files env (root_folder config)).
  destruct (process_files_total env config files (mkCounts 0 0 0) s)
    as (c & Hc & Ht).
  pose proof (process_files_grows env config files (mkCounts 0 0 0) s) as Hg.
  unfold eval in Hc. unfold exec in Hg.
  destruct (process_files env config files (mkCounts 0 0 0) s) as [r s1] eqn:Hrun.
  cbn [fst snd] in *. subst r.
  pose proof (store_grown_built_for _ _ _ Hbuilt Hg) as Hbuilt'.
  destruct (has_categories_shape _ (proj2 (proj2 Hbuilt'))) as (r1 & r2 & r3 & Hshape).
  exists c, s1, r1, r2, r3. split_and!; try done.
  unfold process_directory. fold files. unfold bind at 1. rewrite Hrun.
  unfold bind, exec. by rewrite (save_all_run env config s1 r1 r2 r3 Hbuilt' Hshape).
Qed.



Lemma process_files_tracker env config files c s :
  let s' := exec (process_files env config files c) s in
  tracker_path s' = tracker_path s
  ∧ ∀ p, tracked s' !! p = tracked s !! p
         ∨ (p ∈ files.*1 ∧ is_Some (os_path_getmtime env p)
            ∧ tracked s' !! p = os_path_getmtime env p).
Proof.
  revert c s. induction files as [|[file_path subdir] files IH]; intros c s.
  - split; [done | by left].
  - cbn zeta. unfold exec. simpl.
    destruct (process_file_inv env config file_path subdir s)
      as (o & s1 & Hrun & _ & Hpath & Htr & _).
    rewrite Hrun.
    destruct (IH (count (Ok o) c) s1) as [Hpath' Hrest]. unfold exec in *.
    split; [congruence|].
    intros p. destruct (Hrest p) as [Hsame | (Hin & Hsome & Hval)].
    + rewrite Hsame. destruct Htr as [-> | (m & Hm & ->)]; [by left|].
      destruct (decide (file_path = p)) as [->|Hne].
      * right. rewrite lookup_insert_eq, Hm. split_and!; eauto.
        apply list_elem_of_here.
      * left. by rewrite lookup_insert_ne.
    + right. split_and!; try done. by apply list_elem_of_further.
Qed.

(** X17.  A run never forgets a file and records nothing but current
    modification times: after [process_directory] every path has either
    the entry (or the absence of one) it had before, or it is one of the
    files visited and is mapped to its modification time; the tracker
    keeps its file name. *)
Theorem process_directory_tracker env config s :
  built_for config (xml_handler s) →
  let s' := exec (process_directory env config) s in
  tracker_path s' = tracker_path s
  ∧ ∀ p, tracked s' !! p = tracked s !! p
         ∨ (p ∈ (walk_files env (root_folder config)).*1
            ∧ is_Some (os_path_getmtime env p)
            ∧ tracked s' !! p = os_path_getmtime env p).
Proof.
  intros Hbuilt s'.
  destruct (process_directory_run env config s Hbuilt)
    as (c & s1 & r1 & r2 & r3 & Hfiles & Hbuilt1 & Hshape & Hrun & _).
  pose proof (process_files_tracker env config
                (walk_files env (root_folder config)) (mkCounts 0 0 0) s) as Htr.
  cbn zeta in Htr. unfold exec in Htr. rewrite Hfiles in Htr. cbn [snd] in Htr.
  unfold s'. unfold exec at 1 2 3. rewrite Hrun. cbn [snd].
  unfold exec, tracker_path, tracked.
  rewrite (save_all_run env config s1 r1 r2 r3 Hbuilt1 Hshape). cbn.
  exact Htr.
Qed.

Lemma process_directory_tracker_witness :
  let s :=
    mkSys (mkFileTracker "file_tracker.json"
             {[ "/data/internal/notes.docx" := 50%Q; "/gone.pdf" := 1%Q ]})
          (XMLHandler_init scenario_env "/out" example_config ∅) ∅ in
  let s' := exec (process_directory scenario_env example_config) s in
  tracker_path s' = "file_tracker.json"
  ∧ tracked s' !! "/gone.pdf" = Some 1%Q
  ∧ tracked s' !! "/data/external/report.pdf" = Some 100%Q.
Proof.
  intros s.
  destruct (process_directory_tracker scenario_env example_config s) as [Hp _].
  - unfold built_for, has_categories. split_and!; vm_compute; reflexivity.
  - split_and!; [exact Hp | vm_compute; reflexivity | vm_compute; reflexivity].
Defined.

(** X18.  The classifier only names categories the store has: on a
    handler with its three keys, [add_entry] called with a category that
    [_determine_category] returned never raises, so the "Invalid
    category" error cannot arise inside [_process_file]. *)
Theorem classified_category_is_valid env config subdir s category
    filename body metadata :
  has_categories (xml_handler s) →
  _determine_category env config subdir = Some category →
  category ∈ categories
  ∧ eval (add_entry category filename body metadata) s = Ok tt.
Proof.
  intros Hk Hcat.
  assert (Hin : category ∈ categories).
  { unfold _determine_category in Hcat. unfold categories.
    repeat (destruct (PyStr.contains _ _);
      [injection Hcat as <-; rewrite !elem_of_cons; auto|]).
    done. }
  split; [done|].
  assert (Hmem : dict_mem category (roots (xml_handler s)) = true).
  { apply dict_mem_keys. by rewrite Hk. }
  destruct (dict_mem_get _ _ Hmem) as [root Hroot].
  unfold eval. by rewrite (add_entry_run _ _ _ _ _ _ Hroot).
Qed.

Lemma classified_category_is_valid_witness :
  let s := fresh scenario_env example_config in
  eval (add_entry "internal" "memo.docx" "text" None) s = Ok tt.
Proof.
  intros s.
  destruct (classified_category_is_valid scenario_env example_config
              "/data/Internal/2024" s "internal" "memo.docx" "text" None)
    as [_ H].
  - unfold has_categories. vm_compute. reflexivity.
  - vm_compute. reflexivity.
  - exact H.
Defined.

(** ** document_processor.py: when the extracted text is empty *)

Lemma join_empty (l : list string) :
  Forall (λ t, PyStr.truthy t = true) l →
  PyStr.join PyStr.nl l = "" ↔ l = [].
Proof.
  intros Hall. destruct Hall as [|x rest Hx Hrest]; [done|].
  split; [|done]. destruct x as [|c x]; [done|].
  destruct rest; cbn [PyStr.join]; [done|]. by rewrite append_cons.
Qed.

Lemma filter_nil_iff {A} (f : A → bool) (l : list A) :
  List.filter f l = [] ↔ Forall (λ x, f x = false) l.
Proof.
  induction l as [|x l IH]; simpl.
  - split; [constructor | done].
  - destruct (f x) eqn:E.
    + split; [done|]. intros H. inversion H; congruence.
    + rewrite IH. split.
      * intros H. by constructor.
      * intros H. by inversion H.
Qed.

Lemma filter_Forall {A} (f : A → bool) (l : list A) :
  Forall (λ x, f x = true) (List.filter f l).
Proof.
  induction l as [|x l IH]; simpl; [constructor|].
  destruct (f x) eqn:E; [by constructor | done].
Qed.

(** X19.  [_extract_from_docx] never raises.  It returns the empty
    string exactly when the document cannot be opened or none of its
    paragraphs has visible text (every paragraph is empty or white space
    only, Unicode white space included); otherwise it returns the
    paragraphs that have visible text, in their order, joined by
    newlines. *)
Theorem extract_from_docx_empty_iff env file_path :
  ∃ text,
    _extract_from_docx env file_path = Ok text
    ∧ (text = ""
       ↔ Document env file_path = DocxFails
         ∨ ∃ ps, Document env file_path = DocxParagraphs ps
                 ∧ Forall (λ p, PyStr.whitespace_only p = true) ps)
    ∧ (∀ ps, Document env file_path = DocxParagraphs ps →
         text = PyStr.join PyStr.nl
                  (List.filter (λ p, negb (PyStr.whitespace_only p)) ps)).
Proof.
  unfold _extract_from_docx, try_result.
  destruct (Document env file_path) as [|ps]; cbn.
  - exists "". split_and!; [done | split; auto | done].
  - eexists. split_and!; [done | |].
    + rewrite join_empty.
      * rewrite filter_nil_iff. split.
        -- intros H. right. exists ps. split; [done|].
           eapply Forall_impl; [exact H|]. intros p Hp. cbn in Hp.
           by apply strip_falsy_iff.
        -- intros [?|(ps' & [= <-] & H)]; [done|].
           eapply Forall_impl; [exact H|]. intros p Hp. cbn.
           by apply strip_falsy_iff.
      * eapply Forall_impl; [apply filter_Forall|]. intros p Hp. cbn in Hp.
        by destruct p.
    + intros ps' [= <-]. f_equal. apply filter_ext. intros p.
      destruct (PyStr.whitespace_only p) eqn:E; cbn.
      * by apply strip_falsy_iff.
      * by apply strip_truthy_iff.
Qed.

Lemma pdf_page_texts_truthy pages :
  Forall (λ t, PyStr.truthy t = true) (pdf_page_texts pages).
Proof.
  induction pages as [|[t|] pages IH]; simpl; try done.
  destruct (PyStr.truthy t) eqn:E; [by constructor | done].
Qed.

Lemma pdf_page_texts_nil_iff pages :
  pdf_page_texts pages = []
  ↔ Forall (λ pg, pg = PageRaises ∨ pg = PageText "") pages.
Proof.
  induction pages as [|[t|] pages IH]; simpl.
  - split; [constructor | done].
  - destruct t as [|c t]; simpl.
    + rewrite IH. split; [intros H; constructor; auto | by inversion 1].
    + split; [done|]. inversion 1 as [|? ? [?|?] ?]; done.
  - rewrite IH. split; [intros H; constructor; auto | by inversion 1].
Qed.

(** X20.  [_extract_from_pdf] never raises, and it returns the empty
    string exactly when the PDF cannot be opened, the iteration over its
    pages fails, or every page either fails or has no text; otherwise
    the result is the non-empty page texts joined by newlines, pages
    that fail being left out. *)
Theorem extract_from_pdf_empty_iff env file_path :
  ∃ text,
    _extract_from_pdf env file_path = Ok text
    ∧ (text = ""
       ↔ PdfReader env file_path = PdfOpenFails
         ∨ (∃ pages, PdfReader env file_path = PdfPages pages true)
         ∨ ∃ pages, PdfReader env file_path = PdfPages pages false
                    ∧ Forall (λ pg, pg = PageRaises ∨ pg = PageText "") pages)
    ∧ (∀ pages, PdfReader env file_path = PdfPages pages false →
         text = PyStr.join PyStr.nl (pdf_page_texts pages)).
Proof.
  rewrite extract_from_pdf_ok. eexists. split; [done|].
  destruct (PdfReader env file_path) as [|pages []].
  - split; [|done]. split; auto.
  - split; [|done]. split; eauto.
  - split; [|by intros ? [= <-]].
    rewrite join_empty by apply pdf_page_texts_truthy.
    rewrite pdf_page_texts_nil_iff. split.
    + intros H. right. right. eauto.
    + intros [?|[[? ?]|(pages' & [= <-] & H)]]; done.
Qed.
